(** * jupyter-drives: the drive content gateway of [jupyter_drives/manager.py]

    A shallow embedding of [JupyterDrivesManager]: the registry of mounted
    drives, the content operations dispatched to the object store, and the
    paginated provider call.  Python exceptions are values of [exn], methods
    are computations in a state-and-exception monad over the manager's
    attributes, the remote world and the list of calls that left the
    process. *)

From Stdlib Require Import ZArith Ascii String List Lia.
From stdpp Require Import base option list gmap strings pretty.

Local Open Scope Z_scope.

(** ** Python strings

    A [str] is modelled as a Rocq [string], one character per code point
    below 256. *)

Module PyStr.

Definition eqb (a b : string) : bool := bool_decide (a = b).

Definition is_empty (s : string) : bool :=
  match s with EmptyString => true | String _ _ => false end.

Definition is_char (c : ascii) : ascii -> bool := fun x => bool_decide (x = c).

(** [str.isspace] on the code points below 256. *)
Definition isspace (x : ascii) : bool :=
  match x with
  | "009" | "010" | "011" | "012" | "013"
  | "028" | "029" | "030" | "031" | " " | "133" | "160" => true
  | _ => false
  end%char.

Fixpoint lstrip (P : ascii -> bool) (s : string) : string :=
  match s with
  | EmptyString => EmptyString
  | String c s' => if P c then lstrip P s' else s
  end.

Fixpoint rstrip (P : ascii -> bool) (s : string) : string :=
  match s with
  | EmptyString => EmptyString
  | String c s' =>
      match rstrip P s' with
      | EmptyString => if P c then EmptyString else String c EmptyString
      | r => String c r
      end
  end.

(** [s.strip(chars)]: both ends lose every character of the set. *)
Definition strip (P : ascii -> bool) (s : string) : string :=
  rstrip P (lstrip P s).

(** [s.strip('/')] *)
Definition strip_slash : string -> string := strip (is_char "/"%char).

(** [s.strip()] *)
Definition strip_ws : string -> string := strip isspace.

(** [s.strip] of the double quote character (code point 34). *)
Definition strip_dquote : string -> string := strip (is_char "034"%char).

(** [s.split(sep)] for a one-character separator: never the empty list. *)
Fixpoint split (sep : ascii) (s : string) : list string :=
  match s with
  | EmptyString => [EmptyString]
  | String c s' =>
      if bool_decide (c = sep) then EmptyString :: split sep s'
      else match split sep s' with
           | w :: ws => String c w :: ws
           | [] => [String c EmptyString]
           end
  end.

(** [s.startswith(p)] *)
Fixpoint startswith (p s : string) : bool :=
  match p, s with
  | EmptyString, _ => true
  | String a p', String b s' => bool_decide (a = b) && startswith p' s'
  | String _ _, EmptyString => false
  end.

Fixpoint endswith_char (c : ascii) (s : string) : bool :=
  match s with
  | EmptyString => false
  | String a EmptyString => bool_decide (a = c)
  | String _ s' => endswith_char c s'
  end.

Fixpoint removelast (s : string) : string :=
  match s with
  | EmptyString => EmptyString
  | String _ EmptyString => EmptyString
  | String c s' => String c (removelast s')
  end.

(** [s[1:-1]] *)
Definition slice_1_m1 (s : string) : string :=
  match s with
  | EmptyString => EmptyString
  | String _ s' => removelast s'
  end.

(** [s.find(c) == -1] *)
Fixpoint lacks (c : ascii) (s : string) : bool :=
  match s with
  | EmptyString => true
  | String a s' => negb (bool_decide (a = c)) && lacks c s'
  end.

(** The double quote character, as a string. *)
Definition dquote : string := String "034"%char EmptyString.

(** A string that does not start with a character of the set. *)
Definition clean_head (P : ascii -> bool) (s : string) : Prop :=
  match s with
  | EmptyString => True
  | String c _ => P c = false
  end.

End PyStr.

(** ** Path normalisation *)

(** Every content operation but [get_contents] opens with
    [path = path.strip('/')]. *)
Definition normalize_path (path : string) : string := PyStr.strip_slash path.

(** [get_contents] treats the root on its own:
    [if path == '/': path = '' else: path = path.strip('/')]. *)
Definition normalize_contents_path (path : string) : string :=
  if PyStr.eqb path "/" then EmptyString else PyStr.strip_slash path.

(** ** Python values and exceptions *)

Definition bytes := list Byte.byte.

(** The values that travel through the manager: JSON documents, strings and
    byte strings. *)
#[local] Set Warnings "-register-all".
Inductive pyval :=
| PNone
| PBool (b : bool)
| PInt (n : Z)
| PStr (s : string)
| PBytes (bs : bytes)
| PList (items : list pyval)
| PDict (fields : list (string * pyval)).

(** [isinstance(v, list)] *)
Definition is_list (v : pyval) : bool :=
  match v with PList _ => true | _ => false end.

(** What [obs.put_async] is handed: a value, or the [BytesIO] buffer built
    for base64 content (cursor at 0). *)
Inductive pyobj :=
| PVal (v : pyval)
| PBytesIO (buffer : bytes).

(** [httpx.codes] and [http.HTTPStatus] *)
Module codes.
Definition BAD_REQUEST : Z := 400.
Definition NOT_FOUND : Z := 404.
Definition CONFLICT : Z := 409.
Definition INTERNAL_SERVER_ERROR : Z := 500.
Definition NOT_IMPLEMENTED : Z := 501.
End codes.

(** The exception classes the manager raises, catches or lets through.
    [HTTPError] is [tornado.web.HTTPError(status_code, reason)];
    [HTTPClientError] is [tornado.httpclient.HTTPClientError], whose
    [response] may be absent and whose response body may be [None];
    [LibraryError] is any other exception of a collaborator, with its class
    name and message. *)
Inductive exn :=
| HTTPError (status_code : Z) (reason : string)
| HTTPClientError (code : Z) (response : option (option bytes)) (message : string)
| JSONDecodeError (message : string)
| UnicodeDecodeError (message : string)
| KeyError (key : string)
| TypeError (message : string)
| ValueError (message : string)
| AttributeError (message : string)
| UnboundLocalError (variable : string)
| LibraryError (class_name message : string).

(** ** The manager's attributes *)

(** Modelled from the spec: [DrivesConfig] of [jupyter_drives/base.py], which
    is not among the sources.  The configuration gives the provider
    identifier, the access key id, the secret access key, the session token
    and the base API url; each is a string that may be unset. *)
Record DrivesConfig := {
  provider : option string;
  access_key_id : option string;
  secret_access_key : option string;
  session_token : option string;
  api_base_url : option string;
}.

(** Truth value of an optional string trait: [None] and [''] are falsy. *)
Definition truthy (o : option string) : bool :=
  match o with
  | Some s => negb (PyStr.is_empty s)
  | None => false
  end.

(** [self._config.provider == name] *)
Definition provider_is (cfg : DrivesConfig) (name : string) : bool :=
  bool_decide (provider cfg = Some name).

(** One listed object, as the arrow record batches and [head] report it. *)
Record ObjectMeta (datetime : Type) := {
  meta_path : string;
  meta_last_modified : datetime;
  meta_size : Z;
}.
Arguments meta_path {datetime} _.
Arguments meta_last_modified {datetime} _.
Arguments meta_size {datetime} _.

Inductive store_class := S3Store | GCSStore | HTTPStore.

Inductive put_mode := overwrite | create.

(** [tornado.httpclient.HTTPRequest(url, method=, body=, headers=)] *)
Record HTTPRequest := {
  req_url : string;
  req_method : string;
  req_body : option pyval;
  req_headers : option (list (string * string));
}.

(** The part of an HTTP response [_call_provider] reads. *)
Record HTTPResponse := {
  resp_body : bytes;
  resp_link : option string;
}.

(** ** Collaborators

    Everything the manager calls but does not define: the object-store
    library ([obstore]), the S3 client ([boto3]), and the library functions
    on strings, bytes and JSON.  Remote operations read and change a
    [world]; constructors and codecs are pure and may raise. *)
Class Collaborators := {
  world : Type;
  store : Type;
  client : Type;
  datetime : Type;
  (** [str(e)], as an f-string renders an exception *)
  str_exn : exn -> string;
  (** [str(v)], as an f-string renders a value *)
  str_val : pyval -> string;
  (** [d.isoformat()] *)
  isoformat : datetime -> string;
  (** [json.dumps(v, indent=2)] *)
  json_dumps_indent2 : pyval -> exn + string;
  (** [json.loads(s)] *)
  json_loads : string -> exn + pyval;
  (** [tornado.escape.json_encode(v)] *)
  json_encode : pyval -> exn + string;
  (** [s.encode("utf-8")] and [b.decode("utf-8")] *)
  utf8_encode : string -> exn + bytes;
  utf8_decode : bytes -> exn + string;
  (** [base64.b64decode(v)] and [base64.b64encode(b).decode("utf-8")] *)
  b64decode : pyval -> exn + bytes;
  b64encode : bytes -> string;
  (** [os.path.splitext(p)[1]] and [os.path.basename(p)] *)
  splitext_ext : string -> string;
  basename : string -> string;
  (** [s.lower()] and [s.upper()] *)
  str_lower : string -> string;
  str_upper : string -> string;
  (** [url_path_join(base, url)] and [tornado.httputil.url_concat(url, params)] *)
  url_path_join : string -> string -> string;
  url_concat : string -> list (string * pyval) -> exn + string;
  (** [obs.store.<class>.from_url(url, config)] *)
  store_from_url :
    store_class -> string -> list (string * option string) -> exn + store;
  (** [self._s3_session.client('s3', location)] *)
  session_client : string -> exn + client;
  (** [obs.list], every record batch of the stream *)
  obs_list :
    store -> string -> world -> (exn + list (list (ObjectMeta datetime))) * world;
  (** [obs.get_async] and the chunks of its stream *)
  obs_get : store -> string -> world -> (exn + list bytes) * world;
  obs_head : store -> string -> world -> (exn + ObjectMeta datetime) * world;
  obs_put : store -> string -> pyobj -> put_mode -> world -> (exn + unit) * world;
  obs_delete : store -> string -> world -> (exn + unit) * world;
  obs_copy : store -> string -> string -> world -> (exn + unit) * world;
  obs_rename : store -> string -> string -> world -> (exn + unit) * world;
  (** [client.put_object(Bucket=, Key=)] *)
  s3_put_object : client -> string -> string -> world -> (exn + unit) * world;
  (** ['Contents' in client.list_objects_v2(Bucket=, Prefix=)] *)
  s3_list_objects_v2 : client -> string -> string -> world -> (exn + bool) * world;
}.

Section Manager.
Context `{C : Collaborators}.

(** The value [_content_managers] stores per mounted drive. *)
Record binding := {
  binding_store : store;
  binding_location : string;
}.

(** An HTTP client object, by what [_call_provider] reads of it: the name
    of its class and its attribute [fetch], the coroutine that sends a
    request, when the class has one. *)
Record http_client := {
  client_class : string;
  client_fetch : option (HTTPRequest -> world -> (exn + HTTPResponse) * world);
}.

(** [httpx.AsyncClient()]: the class sends through [request], [send],
    [stream] and one coroutine per verb ([get], [options], [head], [post],
    [put], [patch], [delete]).  [fetch] is the coroutine of tornado's
    [AsyncHTTPClient], whose request and error classes [_call_provider]
    uses; [httpx.AsyncClient] has no attribute of that name. *)
Definition httpx_AsyncClient : http_client :=
  {| client_class := "AsyncClient"; client_fetch := None |}.

(** [client.fetch]: the bound coroutine, or the failed attribute lookup. *)
Definition getattr_fetch (c : http_client)
    : exn + (HTTPRequest -> world -> (exn + HTTPResponse) * world) :=
  match client_fetch c with
  | Some fetch => inr fetch
  | None =>
      inl (AttributeError
             ("'" +:+ client_class c +:+ "' object has no attribute 'fetch'"))
  end.

(** [_client] is bound by [__init__] and by nothing else.
    [_content_managers] may in principle hold [None] for a name
    ([mount_drive] tests for it), hence the optional value.
    [_s3_clients] exists only when the configured provider is ['s3']. *)
Record manager := {
  _config : DrivesConfig;
  _client : http_client;
  _content_managers : gmap string (option binding);
  _s3_clients : option (gmap string client);
}.

(** A call that leaves the process. *)
Inductive call :=
| CallList (st : store) (prefix : string)
| CallGet (st : store) (path : string)
| CallHead (st : store) (path : string)
| CallPut (st : store) (path : string) (content : pyobj) (mode : put_mode)
| CallDelete (st : store) (path : string)
| CallCopy (st : store) (src dst : string)
| CallRename (st : store) (src dst : string)
| CallS3PutObject (c : client) (bucket key : string)
| CallS3ListObjectsV2 (c : client) (bucket prefix : string)
| CallFetch (request : HTTPRequest).

Record state := {
  self : manager;
  remote : world;
  calls : list call;
}.

(** ** The monad of methods: state and exceptions *)

Definition M (A : Type) : Type := state -> (exn + A) * state.

Definition ret {A} (a : A) : M A := fun s => (inr a, s).

Definition raise {A} (e : exn) : M A := fun s => (inl e, s).

Definition bind {A B} (m : M A) (k : A -> M B) : M B :=
  fun s => match m s with
           | (inr a, s') => k a s'
           | (inl e, s') => (inl e, s')
           end.

(** [try: m except Exception as e: h e] *)
Definition try_except {A} (m : M A) (h : exn -> M A) : M A :=
  fun s => match m s with
           | (inl e, s') => h e s'
           | r => r
           end.

(** A pure library call that may raise. *)
Definition lift {A} (r : exn + A) : M A := fun s => (r, s).

(** A remote call: it is recorded, then the world answers. *)
Definition remote_call {A} (c : call) (op : world -> (exn + A) * world) : M A :=
  fun s => let '(r, w) := op (remote s) in
           (r, {| self := self s; remote := w; calls := calls s ++ [c] |}).

Definition get_self : M manager := fun s => (inr (self s), s).

Definition set_self (m : manager) : M unit :=
  fun s => (inr tt, {| self := m; remote := remote s; calls := calls s |}).

Local Notation "x <~ m ;; k" := (bind m (fun x => k))
  (at level 100, m at next level, right associativity).
Local Notation "m ;;; k" := (bind m (fun _ => k))
  (at level 100, right associativity).

(** ** The drive registry *)

(** [self._content_managers[drive_name]]: a missing key raises [KeyError], a
    [None] value cannot be subscripted. *)
Definition content_manager (drive_name : string) : M binding :=
  m <~ get_self ;;
  match _content_managers m !! drive_name with
  | None => raise (KeyError drive_name)
  | Some None => raise (TypeError "'NoneType' object is not subscriptable")
  | Some (Some b) => ret b
  end.

(** [drive_name not in self._content_managers or
     self._content_managers[drive_name] is None] *)
Definition not_mounted (m : manager) (drive_name : string) : bool :=
  match _content_managers m !! drive_name with
  | None => true
  | Some None => true
  | Some (Some _) => false
  end.

Definition set_content_manager (drive_name : string) (b : binding) : M unit :=
  m <~ get_self ;;
  set_self {| _config := _config m;
              _client := _client m;
              _content_managers := <[drive_name := Some b]> (_content_managers m);
              _s3_clients := _s3_clients m |}.

(** [mount_drive]: the conflict is raised inside the [try] block whose
    handler catches every [Exception]. When [provider] is none of the three
    names, [store] is read before it is bound. *)
Definition mount_drive (drive_name provider region : string) : M unit :=
  try_except
    (m <~ get_self ;;
     if not_mounted m drive_name then
       st <~ (if PyStr.eqb provider "s3" then
                lift (store_from_url S3Store ("s3://" +:+ drive_name +:+ "/")
                        [("aws_access_key_id", access_key_id (_config m));
                         ("aws_secret_access_key", secret_access_key (_config m));
                         ("aws_region", Some region)])
              else if PyStr.eqb provider "gcs" then
                lift (store_from_url GCSStore ("gs://" +:+ drive_name +:+ "/") [])
              else if PyStr.eqb provider "http" then
                lift (store_from_url HTTPStore drive_name [])
              else raise (UnboundLocalError "store")) ;;
       set_content_manager drive_name
         {| binding_store := st; binding_location := region |}
     else
       raise (HTTPError codes.CONFLICT "Drive already mounted."))
    (fun e =>
       raise (HTTPError codes.BAD_REQUEST
                ("The following error occured when mouting the drive: "
                   +:+ str_exn e))).

Definition unmount_drive (drive_name : string) : M unit :=
  m <~ get_self ;;
  if bool_decide (is_Some (_content_managers m !! drive_name)) then
    set_self {| _config := _config m;
                _client := _client m;
                _content_managers := delete drive_name (_content_managers m);
                _s3_clients := _s3_clients m |}
  else
    raise (HTTPError codes.NOT_FOUND "Drive is not mounted or doesn't exist.").

(** ** Remote calls of the object store *)

Definition list_ (st : store) (prefix : string) :=
  remote_call (CallList st prefix) (obs_list st prefix).
Definition get_async (st : store) (path : string) :=
  remote_call (CallGet st path) (obs_get st path).
Definition head_async (st : store) (path : string) :=
  remote_call (CallHead st path) (obs_head st path).
Definition put_async (st : store) (path : string) (content : pyobj) (mode : put_mode) :=
  remote_call (CallPut st path content mode) (obs_put st path content mode).
Definition delete_async (st : store) (path : string) :=
  remote_call (CallDelete st path) (obs_delete st path).
Definition copy_async (st : store) (src dst : string) :=
  remote_call (CallCopy st src dst) (obs_copy st src dst).
Definition rename_async (st : store) (src dst : string) :=
  remote_call (CallRename st src dst) (obs_rename st src dst).

(** ** The S3 helpers *)

(** The opening shared by [_check_object] and [_create_empty_directory]:
    [location = self._content_managers[drive_name]["location"]], then the
    client of that location, created and cached when absent. Reading
    [self._s3_clients] fails when the attribute was never set. *)
Definition s3_client_of (drive_name : string) : M client :=
  b <~ content_manager drive_name ;;
  let location := binding_location b in
  m <~ get_self ;;
  match _s3_clients m with
  | None => raise (AttributeError "_s3_clients")
  | Some clients =>
      match clients !! location with
      | Some c => ret c
      | None =>
          c <~ lift (session_client location) ;;
          set_self {| _config := _config m;
                      _client := _client m;
                      _content_managers := _content_managers m;
                      _s3_clients := Some (<[location := c]> clients) |} ;;;
          ret c
      end
  end.

Definition _check_object (drive_name path : string) : M bool :=
  try_except
    (c <~ s3_client_of drive_name ;;
     remote_call (CallS3ListObjectsV2 c drive_name (path +:+ "/"))
       (s3_list_objects_v2 c drive_name (path +:+ "/")))
    (fun e =>
       raise (HTTPError codes.BAD_REQUEST
                ("The following error occured when retriving the drive location: "
                   +:+ str_exn e))).

Definition _create_empty_directory (drive_name path : string) : M unit :=
  try_except
    (c <~ s3_client_of drive_name ;;
     remote_call (CallS3PutObject c drive_name (path +:+ "/"))
       (s3_put_object c drive_name (path +:+ "/")))
    (fun e =>
       raise (HTTPError codes.BAD_REQUEST
                ("The following error occured when creating the directory: "
                   +:+ str_exn e))).

(** ** Response shapes *)

(** The dictionaries the operations answer with. A listing entry and the
    answers of [rename_file] and [copy_file] carry no ["content"] key. *)
Record entry := {
  e_path : string;
  e_content : option pyval;
  e_last_modified : string;
  e_size : Z;
}.

(** The ["data"] of [get_contents]: a list of entries, or one file. *)
Inductive contents :=
| Listing (data : list entry)
| File (data : entry).

Definition listed (object : ObjectMeta datetime) : entry :=
  {| e_path := meta_path object;
     e_content := None;
     e_last_modified := isoformat (meta_last_modified object);
     e_size := meta_size object |}.

(** ** get_contents *)

Definition is_nil {A} (l : list A) : bool :=
  match l with [] => true | _ => false end.

(** One turn of [async for batch in stream], on [(data, isDir, emptyDir)]. *)
Definition list_step (acc : list entry * bool * bool)
    (batch : list (ObjectMeta datetime)) : list entry * bool * bool :=
  let '(data, isDir, emptyDir) := acc in
  let '(isDir, emptyDir) :=
    if negb isDir && negb (is_nil batch) then (true, false)
    else (isDir, emptyDir) in
  (data ++ map listed batch, isDir, emptyDir).

(** One turn of [async for buf in stream], on [(content, emptyDir)]. *)
Definition get_step (acc : bytes * bool) (buf : bytes) : bytes * bool :=
  let '(content, emptyDir) := acc in
  let emptyDir := if emptyDir && negb (is_nil buf) then false else emptyDir in
  (content ++ buf, emptyDir).

Definition base64_extensions : list string :=
  [".pdf"; ".svg"; ".tif"; ".tiff"; ".jpg"; ".jpeg"; ".gif"; ".png"; ".bmp";
   ".webp"].

Definition ext_list : list string :=
  [".R"; ".bmp"; ".csv"; ".gif"; ".html"; ".ipynb"; ".jl"; ".jpeg"; ".jpg";
   ".json"; ".jsonl"; ".md"; ".ndjson"; ".pdf"; ".png"; ".py"; ".svg"; ".tif";
   ".tiff"; ".tsv"; ".txt"; ".webp"; ".yaml"; ".yml"].

Definition mem (x : string) (l : list string) : bool :=
  existsb (PyStr.eqb x) l.

(** [check = self._check_object(...)] is printed and dropped. *)
Definition get_contents (drive_name path : string) : M contents :=
  let path := normalize_contents_path path in
  try_except
    (b <~ content_manager drive_name ;;
     batches <~ list_ (binding_store b) path ;;
     let '(data, isDir, emptyDir) := foldl list_step ([], false, true) batches in
     r <~ (if negb isDir && negb (PyStr.is_empty path) then
             b <~ content_manager drive_name ;;
             chunks <~ get_async (binding_store b) path ;;
             let '(content, emptyDir) := foldl get_step ([], emptyDir) chunks in
             b <~ content_manager drive_name ;;
             metadata <~ head_async (binding_store b) path ;;
             let ext := splitext_ext path in
             processed_content <~
               (if mem ext base64_extensions then ret (b64encode content)
                else lift (utf8_decode content)) ;;
             ret (File {| e_path := path;
                          e_content := Some (PStr processed_content);
                          e_last_modified := isoformat (meta_last_modified metadata);
                          e_size := meta_size metadata |},
                  emptyDir)
           else ret (Listing data, emptyDir)) ;;
     let '(data, emptyDir) := r in
     if emptyDir then
       let object_name := basename path in
       let data :=
         if PyStr.lacks "."%char object_name
            || negb (mem (splitext_ext object_name) ext_list)
         then Listing [] else data in
       _check_object drive_name path ;;;
       ret data
     else ret data)
    (fun e =>
       raise (HTTPError codes.BAD_REQUEST
                ("The following error occured when retrieving the contents: "
                   +:+ str_exn e))).

(** ** new_file *)

Definition new_file (drive_name path : string) (is_dir : bool) : M entry :=
  try_except
    (let path := normalize_path path in
     m <~ get_self ;;
     (if negb is_dir || negb (provider_is (_config m) "s3") then
        b <~ content_manager drive_name ;;
        put_async (binding_store b) path (PVal (PBytes [])) overwrite
      else if is_dir && provider_is (_config m) "s3" then
        _create_empty_directory drive_name path
      else ret tt) ;;;
     b <~ content_manager drive_name ;;
     metadata <~ head_async (binding_store b) path ;;
     ret {| e_path := path;
            e_content := Some (PStr EmptyString);
            e_last_modified := isoformat (meta_last_modified metadata);
            e_size := meta_size metadata |})
    (fun e =>
       raise (HTTPError codes.BAD_REQUEST
                ("The following error occured when creating the object: "
                   +:+ str_exn e))).

(** ** save_file *)

(** [range(0, stop, step)] for a positive step *)
Definition range_step (stop step : nat) : list nat :=
  map (fun k => k * step)%nat (seq 0 ((stop + step - 1) / step)%nat).

(** [b[lo:hi]] *)
Definition slice (lo hi : nat) (b : bytes) : bytes := take (hi - lo) (drop lo b).

(** The loop that cuts the decoded bytes into 512-byte [bytearray]s. *)
Definition byte_arrays (byte_characters : bytes) : list bytes :=
  map (fun offset => slice offset (offset + 512) byte_characters)
      (range_step (length byte_characters) 512).

(** [content.encode("utf-8")]: only a [str] has the method. *)
Definition encode_utf8 (content : pyval) : exn + bytes :=
  match content with
  | PStr s => utf8_encode s
  | _ => inl (AttributeError "encode")
  end.

Definition and_then {A B} (r : exn + A) (k : A -> exn + B) : exn + B :=
  match r with inl e => inl e | inr a => k a end.

(** The [if]/[elif] chain of [save_file] that computes [formatted_content]. *)
Definition formatted_content (content : pyval)
    (options_format content_format content_type : string) : exn + pyobj :=
  if PyStr.eqb options_format "json" then
    and_then (json_dumps_indent2 content) (fun formatted_content =>
    and_then (utf8_encode formatted_content) (fun formatted_content =>
    inr (PVal (PBytes formatted_content))))
  else if PyStr.eqb options_format "base64"
          && (PyStr.eqb content_format "base64" || PyStr.eqb content_type "PDF")
  then
    and_then (b64decode content) (fun byte_characters =>
    inr (PBytesIO (concat (byte_arrays byte_characters))))
  else if PyStr.eqb options_format "text" then
    and_then (encode_utf8 content) (fun formatted_content =>
    inr (PVal (PBytes formatted_content)))
  else inr (PVal content).

(** The same chain without the slicing loop: the decoded bytes go to the
    buffer as they are. *)
Definition negotiated_content (content : pyval)
    (options_format content_format content_type : string) : exn + pyobj :=
  if PyStr.eqb options_format "json" then
    and_then (json_dumps_indent2 content) (fun text =>
    and_then (utf8_encode text) (fun b => inr (PVal (PBytes b))))
  else if PyStr.eqb options_format "base64"
          && (PyStr.eqb content_format "base64" || PyStr.eqb content_type "PDF")
  then and_then (b64decode content) (fun raw => inr (PBytesIO raw))
  else if PyStr.eqb options_format "text" then
    and_then (encode_utf8 content) (fun b => inr (PVal (PBytes b)))
  else inr (PVal content).

(** The format negotiation as the specification words it, one rule per
    case, on the library codecs alone: the JSON text with an indent of 2,
    encoded in UTF-8; the base64 decoding, as a raw byte buffer, when the
    format is base64 and the content is base64 or a PDF; the UTF-8 encoding
    of a text; the content unmodified otherwise. *)
Inductive negotiated (content : pyval)
    (options_format content_format content_type : string) : pyobj -> Prop :=
| negotiated_json text encoded :
    options_format = "json" ->
    json_dumps_indent2 content = inr text ->
    utf8_encode text = inr encoded ->
    negotiated content options_format content_format content_type
      (PVal (PBytes encoded))
| negotiated_base64 raw :
    options_format = "base64" ->
    content_format = "base64" \/ content_type = "PDF" ->
    b64decode content = inr raw ->
    negotiated content options_format content_format content_type
      (PBytesIO raw)
| negotiated_text text encoded :
    options_format = "text" ->
    content = PStr text ->
    utf8_encode text = inr encoded ->
    negotiated content options_format content_format content_type
      (PVal (PBytes encoded))
| negotiated_unmodified :
    options_format <> "json" ->
    ~ (options_format = "base64"
       /\ (content_format = "base64" \/ content_type = "PDF")) ->
    options_format <> "text" ->
    negotiated content options_format content_format content_type
      (PVal content).

Definition save_file (drive_name path : string) (content : pyval)
    (options_format content_format content_type : string) : M entry :=
  try_except
    (let path := normalize_path path in
     formatted_content <~
       lift (formatted_content content options_format content_format content_type) ;;
     b <~ content_manager drive_name ;;
     put_async (binding_store b) path formatted_content overwrite ;;;
     b <~ content_manager drive_name ;;
     metadata <~ head_async (binding_store b) path ;;
     ret {| e_path := path;
            e_content := Some content;
            e_last_modified := isoformat (meta_last_modified metadata);
            e_size := meta_size metadata |})
    (fun e =>
       raise (HTTPError codes.BAD_REQUEST
                ("The following error occured when saving the file: "
                   +:+ str_exn e))).

(** ** rename_file, delete_file, check_file, copy_file *)

Definition rename_file (drive_name path new_path : string) : M entry :=
  try_except
    (let path := normalize_path path in
     b <~ content_manager drive_name ;;
     rename_async (binding_store b) path new_path ;;;
     b <~ content_manager drive_name ;;
     metadata <~ head_async (binding_store b) new_path ;;
     ret {| e_path := new_path;
            e_content := None;
            e_last_modified := isoformat (meta_last_modified metadata);
            e_size := meta_size metadata |})
    (fun e =>
       raise (HTTPError codes.BAD_REQUEST
                ("The following error occured when renaming the object: "
                   +:+ str_exn e))).

Definition delete_file (drive_name path : string) : M unit :=
  try_except
    (let path := normalize_path path in
     b <~ content_manager drive_name ;;
     delete_async (binding_store b) path)
    (fun e =>
       raise (HTTPError codes.BAD_REQUEST
                ("The following error occured when deleting the object: "
                   +:+ str_exn e))).

Definition check_file (drive_name path : string) : M unit :=
  try_except
    (let path := normalize_path path in
     b <~ content_manager drive_name ;;
     head_async (binding_store b) path ;;;
     ret tt)
    (fun _ =>
       raise (HTTPError codes.NOT_FOUND
                "Object does not already exist within drive.")).

Definition copy_file (drive_name path to_path : string) : M entry :=
  try_except
    (let path := normalize_path path in
     b <~ content_manager drive_name ;;
     copy_async (binding_store b) path to_path ;;;
     b <~ content_manager drive_name ;;
     metadata <~ head_async (binding_store b) to_path ;;
     ret {| e_path := to_path;
            e_content := None;
            e_last_modified := isoformat (meta_last_modified metadata);
            e_size := meta_size metadata |})
    (fun e =>
       raise (HTTPError codes.BAD_REQUEST
                ("The following error occured when copying the: "
                   +:+ str_exn e))).

(** ** The paginated provider call *)

(** [d[k] = v] on a dictionary kept in insertion order *)
Fixpoint dict_set {V} (k : string) (v : V) (d : list (string * V)) : list (string * V) :=
  match d with
  | [] => [(k, v)]
  | (k', v') :: d' =>
      if PyStr.eqb k' k then (k, v) :: d' else (k', v') :: dict_set k v d'
  end.

(** [d.get(k)] *)
Fixpoint dict_get {V} (k : string) (d : list (string * V)) : option V :=
  match d with
  | [] => None
  | (k', v) :: d' => if PyStr.eqb k' k then Some v else dict_get k d'
  end.

(** [self.per_page_argument] *)
Definition per_page_argument : option (string * pyval) := Some ("per_page", PInt 100).

(** [k, v = s.strip().split("=")], then the stripped key and value. *)
Definition link_param (s : string) : exn + (string * string) :=
  match PyStr.split "="%char (PyStr.strip_ws s) with
  | [k; v] => inr (PyStr.strip_ws k, PyStr.strip_dquote (PyStr.strip_ws v))
  | [_] => inl (ValueError "not enough values to unpack (expected 2, got 1)")
  | _ => inl (ValueError "too many values to unpack (expected 2)")
  end.

(** The dictionary comprehension over [args[1:]]. *)
Fixpoint link_metadata (args : list string) (metadata : gmap string string)
    : exn + gmap string string :=
  match args with
  | [] => inr metadata
  | a :: args' =>
      and_then (link_param a) (fun kv =>
      link_metadata args' (<[kv.1 := kv.2]> metadata))
  end.

(** [for e in link.split(",")]: the first entry whose [rel] is [next]
    gives [data[1:-1]]. *)
Fixpoint find_next (entries : list string) : exn + option string :=
  match entries with
  | [] => inr None
  | e :: entries' =>
      let args := PyStr.split ";"%char (PyStr.strip_ws e) in
      let data := hd EmptyString args in
      and_then (link_metadata (tl args) ∅) (fun metadata =>
      if PyStr.eqb (default EmptyString (metadata !! "rel")) "next"
      then inr (Some (PyStr.slice_1_m1 data))
      else find_next entries')
  end.

Definition next_link (link : option string) : exn + option string :=
  match link with
  | None => inr None
  | Some link => find_next (PyStr.split ","%char link)
  end.

(** [if not isinstance(v, list): v = [v]] *)
Definition as_list (v : pyval) : list pyval :=
  match v with PList l => l | _ => [v] end.

(** [re.search("^https?:", url)] *)
Definition has_http_scheme (url : string) : bool :=
  PyStr.startswith "http:" url || PyStr.startswith "https:" url.

(** From the body encoding to the [HTTPRequest]: the part of
    [_call_provider] between the credential checks and the [try].
    Answers the request, the final url, [with_pagination], and the body and
    headers as the recursive call receives them. *)
Definition prepare_request (cfg : DrivesConfig) (url : string)
    (load_json : bool) (method : string) (body : option pyval)
    (params : option (list (string * pyval)))
    (headers : option (list (string * string))) (has_pagination : bool)
    : exn + (HTTPRequest * string * bool * option pyval
             * option (list (string * string))) :=
  and_then
    (match body with
     | Some b =>
         let headers := default [] headers in
         let headers := dict_set "Content-Type" "application/json" headers in
         and_then (json_encode b) (fun body => inr (Some (PStr body), Some headers))
     | None => inr (None, headers)
     end) (fun bh =>
  let '(body, headers) := bh in
  and_then
    (match api_base_url cfg with
     | None => inl (TypeError "startswith first arg must be str or a tuple of str, not NoneType")
     | Some base_api_url =>
         if negb (PyStr.startswith base_api_url url) && negb (has_http_scheme url)
         then inr (url_path_join base_api_url url)
         else inr url
     end) (fun url =>
  let '(with_pagination, params) :=
    match per_page_argument with
    | Some (name, value) =>
        if load_json && has_pagination && PyStr.eqb (str_lower method) "get"
        then (true, Some (dict_set name value (default [] params)))
        else (false, params)
    | None => (false, params)
    end in
  and_then
    (match params with
     | Some params => url_concat url params
     | None => inr url
     end) (fun url =>
  inr ({| req_url := url; req_method := str_upper method;
          req_body := body; req_headers := headers |},
       url, with_pagination, body, headers)))).

(** The [except tornado.httpclient.HTTPClientError as e] clause. *)
Definition client_error_raised (url : string) (e : exn) (code : Z)
    (response : option (option bytes)) : exn :=
  let error_body :=
    match response with
    | Some body =>
        utf8_decode (match body with
                     | Some b => if is_nil b then [Byte.x7b; Byte.x7d] else b
                     | None => [Byte.x7b; Byte.x7d]
                     end)
    | None => inr "{}"
    end in
  match error_body with
  | inl raised => raised
  | inr error_body =>
      let message :=
        match json_loads error_body with
        | inr (PDict fields) =>
            inr (match dict_get "message" fields with
                 | Some v => str_val v
                 | None => str_exn e
                 end)
        | inr _ => inl (AttributeError "get")
        | inl (JSONDecodeError _) => inr (str_exn e)
        | inl raised => inl raised
        end in
      match message with
      | inl raised => raised
      | inr message =>
          HTTPError code ("Invalid response in '" +:+ url +:+ "': " +:+ message)
      end
  end.

(** The three [except] clauses of [_call_provider], in order. *)
Definition provider_except (url : string) (e : exn) : exn :=
  match e with
  | HTTPClientError code response _ => client_error_raised url e code response
  | JSONDecodeError _ | UnicodeDecodeError _ =>
      HTTPError codes.BAD_REQUEST
        ("Invalid response in '" +:+ url +:+ "': " +:+ str_exn e)
  | _ =>
      HTTPError codes.INTERNAL_SERVER_ERROR
        ("Unknown error in '" +:+ url +:+ "': " +:+ str_exn e)
  end.

(** The three credential checks that open [_call_provider]. *)
Definition missing_credential (cfg : DrivesConfig) : option exn :=
  if negb (truthy (session_token cfg)) then
    Some (HTTPError codes.BAD_REQUEST
            "No session token specified. Please set DriversConfig.session_token in your user jupyter_server_config file.")
  else if negb (truthy (access_key_id cfg)) then
    Some (HTTPError codes.BAD_REQUEST
            "No access key id specified. Please set DriversConfig.access_key_id in your user jupyter_server_config file.")
  else if negb (truthy (secret_access_key cfg)) then
    Some (HTTPError codes.BAD_REQUEST
            "No secret access key specified. Please set DriversConfig.secret_access_key in your user jupyter_server_config file.")
  else None.

(** [_call_provider] calls itself on the next page, as often as the
    provider links one: [fuel] bounds the depth, and [None] is the run
    that needs more.  The first statement of the [try] block reads the
    attribute [fetch] of [self._client], then calls it. *)
Fixpoint _call_provider (fuel : nat) (url : string) (load_json : bool)
    (method : string) (body : option pyval)
    (params : option (list (string * pyval)))
    (headers : option (list (string * string))) (has_pagination : bool)
    (s : state) : option ((exn + pyval) * state) :=
  match fuel with
  | O => None
  | S fuel =>
      match missing_credential (_config (self s)) with
      | Some e => Some (inl e, s)
      | None =>
          match prepare_request (_config (self s)) url load_json method body
                  params headers has_pagination with
          | inl e => Some (inl e, s)
          | inr (request, url, with_pagination, body, headers) =>
              let tried :=
                match getattr_fetch (_client (self s)) with
                | inl e => Some (inl e, s)
                | inr fetch =>
                    let '(response, s) :=
                      remote_call (CallFetch request) (fetch request) s in
                    match response with
                    | inl e => Some (inl e, s)
                    | inr response =>
                        match utf8_decode (resp_body response) with
                        | inl e => Some (inl e, s)
                        | inr result =>
                            if load_json then
                              match next_link (resp_link response) with
                              | inl e => Some (inl e, s)
                              | inr next_url =>
                                  match json_loads result with
                                  | inl e => Some (inl e, s)
                                  | inr new_ =>
                                      match next_url with
                                      | Some next_url =>
                                          match _call_provider fuel next_url load_json
                                                  method body None headers false s with
                                          | None => None
                                          | Some (inl e, s) => Some (inl e, s)
                                          | Some (inr next_, s) =>
                                              Some (inr (PList (as_list new_ ++ as_list next_)), s)
                                          end
                                      | None =>
                                          if with_pagination && negb (is_list new_)
                                          then Some (inr (PList [new_]), s)
                                          else Some (inr new_, s)
                                      end
                                  end
                              end
                            else Some (inr (PStr result), s)
                        end
                    end
                end in
              match tried with
              | Some (inl e, s) => Some (inl (provider_except url e), s)
              | other => other
              end
          end
      end
  end.

(** The client [s3_client_of] ends up with for a location, and the
    manager once the client is cached; [None] when the attribute is missing
    or the session refuses. *)
Definition cached_client (m : manager) (location : string)
    : option (client * manager) :=
  match _s3_clients m with
  | None => None
  | Some clients =>
      match clients !! location with
      | Some c => Some (c, m)
      | None =>
          match session_client location with
          | inr c =>
              Some (c, {| _config := _config m;
                          _client := _client m;
                          _content_managers := _content_managers m;
                          _s3_clients := Some (<[location := c]> clients) |})
          | inl _ => None
          end
      end
  end.

End Manager.

(** ** A simulated provider

    An in-memory stand-in for the collaborators, used by the examples: one
    flat key space per bucket, where [head], [get], [delete], [copy] and
    [rename] fail on a missing key and a listing under a prefix gives the
    keys below [prefix/].  The codecs are tabulated on the inputs the
    examples use. *)
Module Sim.

Record object := {
  obj_bucket : string;
  obj_key : string;
  obj_content : bytes;
  obj_last_modified : string;
}.

Record world := {
  objects : list object;
  now : string;
}.

Definition not_found (path : string) : exn :=
  LibraryError "FileNotFoundError" ("Object at location " +:+ path +:+ " not found").

Definition is_at (bucket key : string) (o : object) : bool :=
  PyStr.eqb (obj_bucket o) bucket && PyStr.eqb (obj_key o) key.

Definition meta (o : object) : ObjectMeta string :=
  {| meta_path := obj_key o;
     meta_last_modified := obj_last_modified o;
     meta_size := Z.of_nat (length (obj_content o)) |}.

Definition under (bucket prefix : string) (o : object) : bool :=
  PyStr.eqb (obj_bucket o) bucket
  && (PyStr.is_empty prefix || PyStr.startswith (prefix +:+ "/") (obj_key o)).

Definition find_object (bucket key : string) (w : world) : option object :=
  find (is_at bucket key) (objects w).

Definition write (bucket key : string) (content : bytes) (w : world) : world :=
  {| objects :=
       filter (fun o => negb (is_at bucket key o)) (objects w)
       ++ [{| obj_bucket := bucket; obj_key := key; obj_content := content;
              obj_last_modified := now w |}];
     now := now w |}.

Definition remove (bucket key : string) (w : world) : world :=
  {| objects := filter (fun o => negb (is_at bucket key o)) (objects w);
     now := now w |}.

Definition listing (bucket prefix : string) (w : world)
    : (exn + list (list (ObjectMeta string))) * world :=
  match filter (fun o => under bucket prefix o) (objects w) with
  | [] => (inr [], w)
  | found => (inr [map meta found], w)
  end.

Definition get (bucket path : string) (w : world) : (exn + list bytes) * world :=
  match find_object bucket path w with
  | Some o => (inr [obj_content o], w)
  | None => (inl (not_found path), w)
  end.

Definition head (bucket path : string) (w : world)
    : (exn + ObjectMeta string) * world :=
  match find_object bucket path w with
  | Some o => (inr (meta o), w)
  | None => (inl (not_found path), w)
  end.

Definition put (bucket path : string) (content : pyobj) (mode : put_mode)
    (w : world) : (exn + unit) * world :=
  match content with
  | PVal (PBytes b) | PBytesIO b => (inr tt, write bucket path b w)
  | PVal _ => (inl (TypeError "a bytes-like object is required"), w)
  end.

Definition delete (bucket path : string) (w : world) : (exn + unit) * world :=
  match find_object bucket path w with
  | Some _ => (inr tt, remove bucket path w)
  | None => (inl (not_found path), w)
  end.

Definition copy (bucket src dst : string) (w : world) : (exn + unit) * world :=
  match find_object bucket src w with
  | Some o => (inr tt, write bucket dst (obj_content o) w)
  | None => (inl (not_found src), w)
  end.

Definition rename (bucket src dst : string) (w : world) : (exn + unit) * world :=
  match find_object bucket src w with
  | Some o => (inr tt, remove bucket src (write bucket dst (obj_content o) w))
  | None => (inl (not_found src), w)
  end.

Definition put_object (region bucket key : string) (w : world)
    : (exn + unit) * world :=
  (inr tt, write bucket key [] w).

Definition list_objects_v2 (region bucket prefix : string) (w : world)
    : (exn + bool) * world :=
  (inr (existsb (fun o => PyStr.eqb (obj_bucket o) bucket
                          && PyStr.startswith prefix (obj_key o)) (objects w)),
   w).

Definition str_exn (e : exn) : string :=
  match e with
  | HTTPError status_code reason =>
      "HTTP " +:+ pretty status_code +:+ ": " +:+ reason
  | KeyError key => "'" +:+ key +:+ "'"
  | HTTPClientError _ _ message | JSONDecodeError message
  | UnicodeDecodeError message | TypeError message | ValueError message
  | AttributeError message | LibraryError _ message => message
  | UnboundLocalError variable =>
      "cannot access local variable '" +:+ variable
        +:+ "' where it is not associated with a value"
  end.

Definition str_val (v : pyval) : string :=
  match v with
  | PStr s => s
  | PInt n => pretty n
  | PNone => "None"
  | PBool true => "True"
  | PBool false => "False"
  | _ => "..."
  end.

Definition map_string (f : ascii -> ascii) : string -> string :=
  fix go s :=
    match s with
    | EmptyString => EmptyString
    | String c s' => String (f c) (go s')
    end.

Definition lower_char (c : ascii) : ascii :=
  let n := nat_of_ascii c in
  if (65 <=? n)%nat && (n <=? 90)%nat then ascii_of_nat (n + 32) else c.

Definition upper_char (c : ascii) : ascii :=
  let n := nat_of_ascii c in
  if (97 <=? n)%nat && (n <=? 122)%nat then ascii_of_nat (n - 32) else c.

Definition json_loads (s : string) : exn + pyval :=
  if PyStr.eqb s "[1, 2]" then inr (PList [PInt 1; PInt 2])
  else if PyStr.eqb s "[3, 4]" then inr (PList [PInt 3; PInt 4])
  else if PyStr.eqb s "[5]" then inr (PList [PInt 5])
  else if PyStr.eqb s "{}" then inr (PDict [])
  else inl (JSONDecodeError "Expecting value").

Definition json_dumps (v : pyval) : exn + string :=
  match v with
  | PInt n => inr (pretty n)
  | PList [] => inr "[]"
  | PDict [] => inr "{}"
  | _ => inl (TypeError "not tabulated")
  end.

Definition b64decode (v : pyval) : exn + bytes :=
  match v with
  | PStr s =>
      if PyStr.eqb s "aGVsbG8=" then inr (String.list_byte_of_string "hello")
      else inl (LibraryError "binascii.Error" "Incorrect padding")
  | _ => inl (TypeError "argument should be a bytes-like object or ASCII string")
  end.

Definition b64encode (b : bytes) : string :=
  if PyStr.eqb (String.string_of_list_byte b) "hello" then "aGVsbG8="
  else EmptyString.

(** The text after the last [/]. *)
Fixpoint basename (p : string) : string :=
  match p with
  | EmptyString => EmptyString
  | String c p' =>
      if PyStr.lacks "/"%char p' then
        (if bool_decide (c = "/"%char) then p' else p)
      else basename p'
  end.

(** The last dot of a name and what follows it. *)
Fixpoint last_suffix (p : string) : string :=
  match p with
  | EmptyString => EmptyString
  | String c p' =>
      if PyStr.lacks "."%char p' then
        (if bool_decide (c = "."%char) then p else EmptyString)
      else last_suffix p'
  end.

(** A leading dot starts no extension. *)
Definition splitext_ext (p : string) : string :=
  match basename p with
  | EmptyString => EmptyString
  | String _ rest => last_suffix rest
  end.

Fixpoint drop_chars (n : nat) (s : string) : string :=
  match n, s with
  | S n', String _ s' => drop_chars n' s'
  | _, _ => s
  end.

Definition from_url (cls : store_class) (url : string)
    (config : list (string * option string)) : exn + string :=
  match cls with
  | S3Store =>
      if PyStr.startswith "s3://" url
      then inr (PyStr.strip_slash (drop_chars 5 url))
      else inl (LibraryError "ValueError" "not an s3 url")
  | GCSStore =>
      if PyStr.startswith "gs://" url
      then inr (PyStr.strip_slash (drop_chars 5 url))
      else inl (LibraryError "ValueError" "not a gs url")
  | HTTPStore => inr url
  end.

Definition url_concat (url : string) (params : list (string * pyval))
    : exn + string :=
  inr (url +:+ "?"
       +:+ String.concat "&" (map (fun kv => kv.1 +:+ "=" +:+ str_val kv.2) params)).

End Sim.

#[export] Instance simulated : Collaborators := {|
  world := Sim.world;
  store := string;
  client := string;
  datetime := string;
  str_exn := Sim.str_exn;
  str_val := Sim.str_val;
  isoformat := fun d => d;
  json_dumps_indent2 := Sim.json_dumps;
  json_loads := Sim.json_loads;
  json_encode := Sim.json_dumps;
  utf8_encode := fun s => inr (String.list_byte_of_string s);
  utf8_decode := fun b => inr (String.string_of_list_byte b);
  b64decode := Sim.b64decode;
  b64encode := Sim.b64encode;
  splitext_ext := Sim.splitext_ext;
  basename := Sim.basename;
  str_lower := Sim.map_string Sim.lower_char;
  str_upper := Sim.map_string Sim.upper_char;
  url_path_join := fun base url =>
    PyStr.rstrip (PyStr.is_char "/"%char) base +:+ "/"
      +:+ PyStr.lstrip (PyStr.is_char "/"%char) url;
  url_concat := Sim.url_concat;
  store_from_url := Sim.from_url;
  session_client := fun location => inr location;
  obs_list := Sim.listing;
  obs_get := Sim.get;
  obs_head := Sim.head;
  obs_put := Sim.put;
  obs_delete := Sim.delete;
  obs_copy := Sim.copy;
  obs_rename := Sim.rename;
  s3_put_object := Sim.put_object;
  s3_list_objects_v2 := Sim.list_objects_v2;
|}.

(** ** A scenario on the simulated provider

    An S3 configuration with every credential set and one bucket
    [bucket-a] in region [eu-north-1] holding one note. *)
Module Example.

Definition config : DrivesConfig :=
  {| provider := Some "s3";
     access_key_id := Some "AKIAEXAMPLE";
     secret_access_key := Some "wJalrEXAMPLEKEY";
     session_token := Some "FwoGEXAMPLE";
     api_base_url := Some "https://api.example" |}.

(** Two [Link] headers a provider may send with the first of two pages:
    the next url of the first holds neither a comma nor a semicolon, the
    next url of the second holds a comma in its query. *)
Definition link_plain : string :=
  "<https://api.example/items?page=2>; rel=" +:+ PyStr.dquote +:+ "next"
    +:+ PyStr.dquote.

Definition link_with_comma : string :=
  "<https://api.example/items?ids=1,2&page=2>; rel=" +:+ PyStr.dquote
    +:+ "next" +:+ PyStr.dquote.

Definition cloud : Sim.world :=
  {| Sim.objects :=
       [{| Sim.obj_bucket := "bucket-a"; Sim.obj_key := "docs/readme.md";
           Sim.obj_content := String.list_byte_of_string "hello";
           Sim.obj_last_modified := "2024-04-30T08:15:00+00:00" |}];
     Sim.now := "2024-05-01T12:00:00+00:00" |}.

(** The manager as [__init__] leaves it. *)
Definition fresh : state :=
  {| self := {| _config := config; _client := httpx_AsyncClient;
                _content_managers := ∅; _s3_clients := Some ∅ |};
     remote := cloud;
     calls := [] |}.

(** After [mount_drive("bucket-a", "s3", "eu-north-1")]. *)
Definition mounted : state :=
  (mount_drive "bucket-a" "s3" "eu-north-1" fresh).2.

Definition bucket_a : binding :=
  {| binding_store := "bucket-a"; binding_location := "eu-north-1" |}.

(** The same manager without a session token. *)
Definition no_token : state :=
  {| self := {| _config :=
                  {| provider := Some "s3";
                     access_key_id := Some "AKIAEXAMPLE";
                     secret_access_key := Some "wJalrEXAMPLEKEY";
                     session_token := None;
                     api_base_url := Some "https://api.example" |};
                _client := httpx_AsyncClient;
                _content_managers := ∅;
                _s3_clients := Some ∅ |};
     remote := cloud;
     calls := [] |}.

Definition get (url : string) : HTTPRequest :=
  {| req_url := url; req_method := "GET"; req_body := None;
     req_headers := None |}.

End Example.

(** ** Construction and drive discovery

    [__init__], [_get_drive_location] and [list_drives] of
    [JupyterDrivesManager].  Their collaborators are the libcloud drivers
    and two more calls of boto3; the calls they make are logged apart from
    the calls of the content operations. *)

(** A container as [drive.list_containers()] gives it: [result.name] and
    [result.extra]. *)
Record container := {
  container_name : string;
  container_extra : list (string * pyval);
}.

(** [Provider.S3] and [Provider.GOOGLE_STORAGE] of libcloud *)
Inductive libcloud_provider := Provider_S3 | Provider_GOOGLE_STORAGE.

Class Discovery `{C : Collaborators} := {
  (** [get_driver(p)(key, secret).list_containers()] *)
  list_containers :
    libcloud_provider -> option string -> option string -> world
    -> (exn + list container) * world;
  (** [self._s3_session.client('s3')] *)
  session_default_client : exn + client;
  (** [client.get_bucket_location(Bucket=)['LocationConstraint']], which is
      [None] for the default region *)
  s3_get_bucket_location :
    client -> string -> world -> (exn + option string) * world;
}.

Section Discovery.
Context `{D : Discovery}.

(** [__init__]: the HTTP client is an [httpx.AsyncClient]; the boto3
    session, and with it [_s3_clients], exists only for the provider
    ['s3'], which needs both keys. *)
Definition __init__ (config : DrivesConfig) : exn + manager :=
  if provider_is config "s3" then
    if truthy (access_key_id config) && truthy (secret_access_key config) then
      inr {| _config := config; _client := httpx_AsyncClient;
             _content_managers := ∅; _s3_clients := Some ∅ |}
    else
      inl (HTTPError codes.BAD_REQUEST
             "No credentials specified. Please set them in your user jupyter_server_config file.")
  else
    inr {| _config := config; _client := httpx_AsyncClient;
           _content_managers := ∅; _s3_clients := None |}.

Inductive discovery_call :=
| CallListContainers (p : libcloud_provider)
| CallGetBucketLocation (c : client) (bucket : string).

(** Discovery reads the manager and talks to the world: state is the world
    and the log of calls. *)
Definition DM (A : Type) : Type :=
  world * list discovery_call -> (exn + A) * (world * list discovery_call).

Definition dret {A} (a : A) : DM A := fun s => (inr a, s).

Definition draise {A} (e : exn) : DM A := fun s => (inl e, s).

Definition dbind {A B} (m : DM A) (k : A -> DM B) : DM B :=
  fun s => match m s with
           | (inr a, s') => k a s'
           | (inl e, s') => (inl e, s')
           end.

Definition dtry {A} (m : DM A) (h : exn -> DM A) : DM A :=
  fun s => match m s with
           | (inl e, s') => h e s'
           | r => r
           end.

Definition dcall {A} (c : discovery_call) (op : world -> (exn + A) * world)
    : DM A :=
  fun s => let '(r, w) := op s.1 in (r, (w, s.2 ++ [c])).

(** [_get_drive_location]: [self._s3_session] is set together with
    [_s3_clients]; the default ['eu-north-1'] is always overwritten or
    lost to the exception. *)
Definition _get_drive_location (m : manager) (drive_name : string)
    : DM (option string) :=
  dtry
    (dbind (match _s3_clients m with
            | Some _ => fun s => (session_default_client, s)
            | None => draise (AttributeError "_s3_session")
            end) (fun s3 =>
     dcall (CallGetBucketLocation s3 drive_name)
       (s3_get_bucket_location s3 drive_name)))
    (fun e =>
       draise (HTTPError codes.BAD_REQUEST
                 ("The following error occured when retriving the drive location: "
                    +:+ str_exn e))).

(** One entry of the answer of [list_drives]. *)
Record drive := {
  drive_name_ : string;
  drive_region : option string;
  drive_creation_date : pyval;
  drive_mounted : bool;
  drive_provider : option string;
}.

(** [for result in results]: [location] is assigned for the provider
    ['s3'] only, and read for every provider; the entry is built in the
    order name, region, creation_date, mounted, provider. *)
Fixpoint drive_entries (m : manager) (results : list container)
    : DM (list drive) :=
  match results with
  | [] => dret []
  | result :: results =>
      dbind (if provider_is (_config m) "s3"
             then _get_drive_location m (container_name result)
             else draise (UnboundLocalError "location")) (fun location =>
      dbind (match dict_get "creation_date" (container_extra result) with
             | Some d => dret d
             | None => draise (KeyError "creation_date")
             end) (fun creation_date =>
      dbind (drive_entries m results) (fun data =>
      dret ({| drive_name_ := container_name result;
               drive_region := location;
               drive_creation_date := creation_date;
               drive_mounted :=
                 bool_decide (is_Some (_content_managers m !! container_name result));
               drive_provider := provider (_config m) |} :: data))))
  end.

Definition list_drives (m : manager) : DM (list drive) :=
  let cfg := _config m in
  if truthy (access_key_id cfg) && truthy (secret_access_key cfg) then
    dbind (if provider_is cfg "s3" then dret Provider_S3
           else if provider_is cfg "gcs" then dret Provider_GOOGLE_STORAGE
           else draise (HTTPError codes.NOT_IMPLEMENTED
                          "Listing drives not supported for given provider."))
      (fun p =>
    dbind (dcall (CallListContainers p)
             (list_containers p (access_key_id cfg) (secret_access_key cfg)))
      (fun results =>
    drive_entries m results))
  else
    draise (HTTPError codes.BAD_REQUEST
              "No credentials specified. Please set them in your user jupyter_server_config file.").

End Discovery.

(** ** The S3 manager of [managers/s3.py]

    [S3Manager] keeps a registry of its own, [s3_content_managers], with one
    [S3ContentsManager] per mounted bucket. *)
Module S3Manager.
Section S3Manager.

Variable S3ContentsManager : Type.

(** [S3ContentsManager(access_key=, secret_access_key=, endpoint_url=,
    bucket=)] *)
Variable new_contents_manager :
  option string -> option string -> option string -> string
  -> exn + S3ContentsManager.

Record t := {
  config : DrivesConfig;
  s3_content_managers : gmap string S3ContentsManager;
}.

(** [mount_drive]: no test of the registry, no [try]. *)
Definition mount_drive (self : t) (drive_name : string)
    : exn + (S3ContentsManager * t) :=
  match new_contents_manager (access_key_id (config self))
          (secret_access_key (config self)) (api_base_url (config self))
          drive_name with
  | inl e => inl e
  | inr s3_contents_manager =>
      inr (s3_contents_manager,
           {| config := config self;
              s3_content_managers :=
                <[drive_name := s3_contents_manager]> (s3_content_managers self) |})
  end.

Definition unmount_drive (self : t) (drive_name : string) : exn + t :=
  if bool_decide (is_Some (s3_content_managers self !! drive_name)) then
    inr {| config := config self;
           s3_content_managers := delete drive_name (s3_content_managers self) |}
  else
    inl (HTTPError codes.BAD_REQUEST "Drive is not mounted or doesn't exist.").

End S3Manager.
End S3Manager.

(** ** Discovery on the simulated provider *)

(** Every bucket that holds an object is a container, created [now]; every
    such bucket lies in [eu-north-1]. *)
Definition sim_buckets (w : Sim.world) : list string :=
  remove_dups (map Sim.obj_bucket (Sim.objects w)).

#[export] Instance simulated_discovery : Discovery (C := simulated) := {|
  list_containers := fun _ _ _ w =>
    (inr (map (fun name =>
                 {| container_name := name;
                    container_extra := [("creation_date", PStr (Sim.now w))] |})
              (sim_buckets w)), w);
  session_default_client := inr "default";
  s3_get_bucket_location := fun _ bucket w =>
    if existsb (PyStr.eqb bucket) (sim_buckets w)
    then (inr (Some "eu-north-1"), w)
    else (inl (LibraryError "ClientError" "NoSuchBucket"), w);
|}.

(** ** Auxiliary notions for the further properties *)

(** Every character of the string is in the set. *)
Fixpoint all_chars (P : ascii -> bool) (s : string) : bool :=
  match s with
  | EmptyString => true
  | String c s' => P c && all_chars P s'
  end.

(** The state [mount_drive] leaves when it binds [drive_name] to [st]. *)
Definition bound_to `{C : Collaborators} (s : state) (drive_name : string)
    (st : store) (region : string) : state :=
  {| self :=
       {| _config := _config (self s);
          _client := _client (self s);
          _content_managers :=
            <[drive_name := Some {| binding_store := st;
                                    binding_location := region |}]>
              (_content_managers (self s));
          _s3_clients := _s3_clients (self s) |};
     remote := remote s;
     calls := calls s |}.

(** The store [mount_drive] asks for, by provider name; [None] for a name
    it does not know. *)
Definition requested_store `{C : Collaborators} (cfg : DrivesConfig)
    (drive_name provider region : string) : option (exn + store) :=
  if PyStr.eqb provider "s3" then
    Some (store_from_url S3Store ("s3://" +:+ drive_name +:+ "/")
            [("aws_access_key_id", access_key_id cfg);
             ("aws_secret_access_key", secret_access_key cfg);
             ("aws_region", Some region)])
  else if PyStr.eqb provider "gcs" then
    Some (store_from_url GCSStore ("gs://" +:+ drive_name +:+ "/") [])
  else if PyStr.eqb provider "http" then
    Some (store_from_url HTTPStore drive_name [])
  else None.

(** A computation that only adds to the log of calls. *)
Definition appends `{C : Collaborators} {A} (m : M A) : Prop :=
  forall s, exists rest, calls (m s).2 = calls s ++ rest.

(** A computation that leaves [self._client] bound as it was. *)
Definition keeps_client `{C : Collaborators} {A} (m : M A) : Prop :=
  forall s, _client (self (m s).2) = _client (self s).

(** ** More scenarios on the simulated provider *)
Module Scenario.

(** After [unmount_drive("bucket-a")]. *)
Definition unmounted_again : state :=
  (unmount_drive "bucket-a" Example.mounted).2.

(** After [new_file("bucket-a", "notes", False)]: an empty object. *)
Definition with_empty_note : state :=
  (new_file "bucket-a" "notes" false Example.mounted).2.

(** A mounted bucket that holds nothing. *)
Definition mounted_empty : state :=
  (mount_drive "bucket-b" "s3" "eu-north-1" Example.fresh).2.

Definition bucket_b : binding :=
  {| binding_store := "bucket-b"; binding_location := "eu-north-1" |}.

(** The manager once the client of [eu-north-1] is cached. *)
Definition with_client (s : state) : manager :=
  {| _config := _config (self s);
     _client := _client (self s);
     _content_managers := _content_managers (self s);
     _s3_clients := Some {["eu-north-1" := "eu-north-1"]} |}.

(** A manager configured for [gcs], with both keys. *)
Definition gcs_manager : manager :=
  {| _config := {| provider := Some "gcs";
                   access_key_id := Some "GOOGEXAMPLE";
                   secret_access_key := Some "gcsEXAMPLEKEY";
                   session_token := None;
                   api_base_url := None |};
     _client := httpx_AsyncClient;
     _content_managers := ∅;
     _s3_clients := None |}.

(** A discovery where the second of two buckets cannot be located. *)
Definition two_buckets : list container :=
  [{| container_name := "bucket-a";
      container_extra := [("creation_date", PStr "2023-11-05T09:30:00.000Z")] |};
   {| container_name := "bucket-gone";
      container_extra := [("creation_date", PStr "2024-01-17T16:45:00.000Z")] |}].

Definition flaky_discovery : Discovery (C := simulated) :=
  {| list_containers := fun _ _ _ w => (inr two_buckets, w);
     session_default_client := inr "default";
     s3_get_bucket_location := fun _ bucket w =>
       if PyStr.eqb bucket "bucket-a" then (inr (Some "eu-north-1"), w)
       else (inl (LibraryError "ClientError" "NoSuchBucket"), w) |}.

End Scenario.

(** * Properties *)

(** ** Stripping *)

Lemma rstrip_idempotent P s : PyStr.rstrip P (PyStr.rstrip P s) = PyStr.rstrip P s.
Proof.
  induction s as [|c s IH]; [reflexivity|].
  simpl. destruct (PyStr.rstrip P s) as [|d r] eqn:E.
  - destruct (P c) eqn:Pc; simpl; [reflexivity | now rewrite Pc].
  - change (PyStr.rstrip P (String c (String d r)))
      with (match PyStr.rstrip P (String d r) with
            | EmptyString => if P c then EmptyString else String c EmptyString
            | r0 => String c r0
            end).
    now rewrite IH.
Qed.

Lemma lstrip_clean_head P s : PyStr.clean_head P (PyStr.lstrip P s).
Proof.
  induction s as [|c s IH]; simpl; [exact I|].
  destruct (P c) eqn:Pc; [exact IH | exact Pc].
Qed.

Lemma lstrip_fixed P s : PyStr.clean_head P s -> PyStr.lstrip P s = s.
Proof. destruct s as [|c s]; simpl; [reflexivity|]. now intros ->. Qed.

Lemma rstrip_clean_head P s : PyStr.clean_head P s -> PyStr.clean_head P (PyStr.rstrip P s).
Proof.
  destruct s as [|c s]; simpl; [trivial|]. intros Pc.
  destruct (PyStr.rstrip P s); [rewrite Pc|]; exact Pc.
Qed.

Lemma strip_idempotent P s : PyStr.strip P (PyStr.strip P s) = PyStr.strip P s.
Proof.
  unfold PyStr.strip.
  rewrite (lstrip_fixed P (PyStr.rstrip P (PyStr.lstrip P s))).
  - apply rstrip_idempotent.
  - apply rstrip_clean_head, lstrip_clean_head.
Qed.

Lemma rstrip_no_trailing c s :
  PyStr.endswith_char c (PyStr.rstrip (PyStr.is_char c) s) = false.
Proof.
  induction s as [|a s IH]; [reflexivity|].
  simpl. destruct (PyStr.rstrip (PyStr.is_char c) s) as [|d r].
  - destruct (PyStr.is_char c a) eqn:E; [reflexivity|exact E].
  - exact IH.
Qed.

Lemma clean_head_startswith c s :
  PyStr.clean_head (PyStr.is_char c) s ->
  PyStr.startswith (String c EmptyString) s = false.
Proof.
  destruct s as [|a s]; simpl; [reflexivity|].
  unfold PyStr.is_char. intros E.
  rewrite bool_decide_eq_false in E.
  rewrite andb_true_r. apply bool_decide_eq_false. congruence.
Qed.

Lemma normalize_contents_path_strip path :
  normalize_contents_path path = normalize_path path.
Proof.
  unfold normalize_contents_path, PyStr.eqb.
  case_bool_decide as E; [now subst | reflexivity].
Qed.

Lemma normalize_path_clean_ends path :
  PyStr.startswith "/" (normalize_path path) = false
  /\ PyStr.endswith_char "/" (normalize_path path) = false.
Proof.
  unfold normalize_path, PyStr.strip_slash. split.
  - apply clean_head_startswith. unfold PyStr.strip.
    apply rstrip_clean_head, lstrip_clean_head.
  - apply rstrip_no_trailing.
Qed.

Lemma normalize_path_idempotent path :
  normalize_path (normalize_path path) = normalize_path path.
Proof. apply strip_idempotent. Qed.

Lemma normalize_contents_path_idempotent path :
  normalize_contents_path (normalize_path path) = normalize_contents_path path.
Proof.
  now rewrite !normalize_contents_path_strip, normalize_path_idempotent.
Qed.

(** ** Splitting and joining *)

Lemma append_assoc (a b c : string) : (a +:+ b) +:+ c = a +:+ (b +:+ c).
Proof.
  induction a as [|x a IH]; [reflexivity|].
  change (String x ((a +:+ b) +:+ c) = String x (a +:+ b +:+ c)).
  now rewrite IH.
Qed.

Lemma lacks_app c a b :
  PyStr.lacks c (a +:+ b) = PyStr.lacks c a && PyStr.lacks c b.
Proof.
  induction a as [|x a IH]; simpl; [reflexivity|].
  now rewrite IH, andb_assoc.
Qed.

Lemma split_lacks c s : PyStr.lacks c s = true -> PyStr.split c s = [s].
Proof.
  induction s as [|x s IH]; simpl; [reflexivity|].
  intros H. apply andb_true_iff in H as [Hx Hs].
  apply negb_true_iff in Hx. rewrite Hx. now rewrite (IH Hs).
Qed.

Lemma split_app_sep c a b :
  PyStr.lacks c a = true ->
  PyStr.split c (a +:+ String c b) = a :: PyStr.split c b.
Proof.
  induction a as [|x a IH]; simpl.
  - intros _. now rewrite bool_decide_eq_true_2.
  - intros H. apply andb_true_iff in H as [Hx Ha].
    apply negb_true_iff in Hx. rewrite Hx. now rewrite (IH Ha).
Qed.

Lemma rstrip_app P a b :
  PyStr.rstrip P b <> EmptyString ->
  PyStr.rstrip P (a +:+ b) = a +:+ PyStr.rstrip P b.
Proof.
  intros Hb. induction a as [|x a IH]; simpl; [reflexivity|].
  rewrite IH.
  change (String x a +:+ PyStr.rstrip P b)
    with (String x (a +:+ PyStr.rstrip P b)).
  destruct (a +:+ PyStr.rstrip P b) eqn:E; [|reflexivity].
  destruct a; simpl in E; [contradiction | discriminate].
Qed.

Lemma removelast_snoc u c : PyStr.removelast (u +:+ String c EmptyString) = u.
Proof.
  induction u as [|x u IH]; simpl; [reflexivity|].
  rewrite IH. destruct u; reflexivity.
Qed.

Lemma startswith_refl s : PyStr.startswith s s = true.
Proof.
  induction s as [|x s IH]; simpl; [reflexivity|].
  now rewrite bool_decide_eq_true_2, IH.
Qed.

(** ** The Link header *)

(** A header made of the one entry [<u>; rel="next"] gives [u], as long as
    [u] holds neither a comma nor a semicolon, the two separators the
    parser splits on. *)
Lemma next_link_of_next_entry u :
  PyStr.lacks ","%char u = true ->
  PyStr.lacks ";"%char u = true ->
  next_link (Some ("<" +:+ u +:+ ">; rel=" +:+ PyStr.dquote +:+ "next"
                   +:+ PyStr.dquote))
  = inr (Some u).
Proof.
  intros Hcomma Hsemi. unfold next_link.
  set (rel := " rel=" +:+ PyStr.dquote +:+ "next" +:+ PyStr.dquote).
  change (">; rel=" +:+ PyStr.dquote +:+ "next" +:+ PyStr.dquote)
    with (">" +:+ String ";" rel).
  rewrite split_lacks.
  2:{ rewrite !lacks_app, Hcomma. reflexivity. }
  unfold find_next.
  assert (Hstrip : PyStr.strip_ws ("<" +:+ u +:+ ">" +:+ String ";" rel)
                   = ("<" +:+ u +:+ ">") +:+ String ";" rel).
  { unfold PyStr.strip_ws, PyStr.strip.
    change (PyStr.lstrip PyStr.isspace ("<" +:+ u +:+ ">" +:+ String ";" rel))
      with ("<" +:+ u +:+ ">" +:+ String ";" rel).
    rewrite <- (append_assoc u), <- (append_assoc "<").
    rewrite rstrip_app; [reflexivity | discriminate]. }
  rewrite Hstrip, split_app_sep.
  2:{ rewrite !lacks_app, Hsemi. reflexivity. }
  change (PyStr.split ";" rel) with [rel].
  cbn [hd tl].
  assert (Hmeta : exists metadata,
             link_metadata [rel] ∅ = inr metadata
             /\ metadata !! "rel" = Some "next").
  { eexists. split; [reflexivity|]. vm_compute. reflexivity. }
  destruct Hmeta as (metadata & -> & Hrel).
  unfold and_then. rewrite Hrel. simpl default.
  change (PyStr.eqb "next" "next") with true. cbv iota.
  do 2 f_equal. simpl. apply removelast_snoc.
Qed.

Section Properties.
Context `{C : Collaborators}.

Implicit Types (s : state) (b : binding) (e : exn).

(** ** Running a method *)

Ltac run :=
  unfold bind, ret, raise, try_except, lift, get_self, set_self, remote_call;
  simpl.

Lemma content_manager_bound s drive_name b :
  _content_managers (self s) !! drive_name = Some (Some b) ->
  content_manager drive_name s = (inr b, s).
Proof. intros H. unfold content_manager. run. now rewrite H. Qed.

Lemma content_manager_absent s drive_name :
  _content_managers (self s) !! drive_name = None ->
  content_manager drive_name s = (inl (KeyError drive_name), s).
Proof. intros H. unfold content_manager. run. now rewrite H. Qed.

Lemma bind_content_manager_bound {A} s drive_name b (k : binding -> M A) :
  _content_managers (self s) !! drive_name = Some (Some b) ->
  bind (content_manager drive_name) k s = k b s.
Proof. intros H. unfold bind. now rewrite (content_manager_bound _ _ _ H). Qed.

Lemma bind_content_manager_absent {A} s drive_name (k : binding -> M A) :
  _content_managers (self s) !! drive_name = None ->
  bind (content_manager drive_name) k s = (inl (KeyError drive_name), s).
Proof. intros H. unfold bind. now rewrite (content_manager_absent _ _ H). Qed.

Ltac bound H := erewrite bind_content_manager_bound by exact H.

Lemma s3_client_of_absent s drive_name :
  _content_managers (self s) !! drive_name = None ->
  s3_client_of drive_name s = (inl (KeyError drive_name), s).
Proof.
  intros H. unfold s3_client_of. apply (bind_content_manager_absent _ _ _ H).
Qed.

Lemma create_empty_directory_absent s drive_name path :
  _content_managers (self s) !! drive_name = None ->
  _create_empty_directory drive_name path s
  = (inl (HTTPError codes.BAD_REQUEST
            ("The following error occured when creating the directory: "
               +:+ str_exn (KeyError drive_name))), s).
Proof.
  intros H. unfold _create_empty_directory, try_except, bind.
  now rewrite (s3_client_of_absent _ _ H).
Qed.

(** ** The registry *)

(** Mounting a name that is bound raises the conflict inside the [try]
    block: what leaves [mount_drive] is the handler's BAD_REQUEST, and the
    state is untouched. *)
Lemma mount_drive_bound s drive_name provider region b :
  _content_managers (self s) !! drive_name = Some (Some b) ->
  mount_drive drive_name provider region s
  = (inl (HTTPError codes.BAD_REQUEST
            ("The following error occured when mouting the drive: "
               +:+ str_exn (HTTPError codes.CONFLICT "Drive already mounted."))),
     s).
Proof.
  intros H. unfold mount_drive, not_mounted. run. now rewrite H.
Qed.

(** ** Operations on a drive that is not mounted *)

(** C4, as the code has it. On a drive name without binding every content
    operation fails before any call leaves the process, and leaves registry,
    world and call log as they were.  The error is the BAD_REQUEST wrapper
    of the operation around the [KeyError] of the registry lookup, with two
    exceptions to the cause: [new_file] of a directory under an [s3]
    configuration wraps the BAD_REQUEST in which [_create_empty_directory]
    has already wrapped that [KeyError], and [save_file] of a content that
    does not transcode wraps the transcoding error, raised before the
    lookup.  [check_file] answers NOT_FOUND. *)
Theorem unmounted_drive_fails_without_io s drive_name :
  _content_managers (self s) !! drive_name = None ->
  (forall path,
      get_contents drive_name path s
      = (inl (HTTPError codes.BAD_REQUEST
                ("The following error occured when retrieving the contents: "
                   +:+ str_exn (KeyError drive_name))), s))
  /\ (forall path is_dir,
         new_file drive_name path is_dir s
         = (inl (HTTPError codes.BAD_REQUEST
                   ("The following error occured when creating the object: "
                      +:+ str_exn
                            (if is_dir && provider_is (_config (self s)) "s3"
                             then
                               HTTPError codes.BAD_REQUEST
                                 ("The following error occured when creating the directory: "
                                    +:+ str_exn (KeyError drive_name))
                             else KeyError drive_name))), s))
  /\ (forall path content options_format content_format content_type,
         save_file drive_name path content options_format content_format
           content_type s
         = (inl (HTTPError codes.BAD_REQUEST
                   ("The following error occured when saving the file: "
                      +:+ str_exn
                            (match formatted_content content options_format
                                     content_format content_type with
                             | inl transcoding => transcoding
                             | inr _ => KeyError drive_name
                             end))), s))
  /\ (forall path new_path,
         rename_file drive_name path new_path s
         = (inl (HTTPError codes.BAD_REQUEST
                   ("The following error occured when renaming the object: "
                      +:+ str_exn (KeyError drive_name))), s))
  /\ (forall path,
         delete_file drive_name path s
         = (inl (HTTPError codes.BAD_REQUEST
                   ("The following error occured when deleting the object: "
                      +:+ str_exn (KeyError drive_name))), s))
  /\ (forall path to_path,
         copy_file drive_name path to_path s
         = (inl (HTTPError codes.BAD_REQUEST
                   ("The following error occured when copying the: "
                      +:+ str_exn (KeyError drive_name))), s))
  /\ (forall path,
         check_file drive_name path s
         = (inl (HTTPError codes.NOT_FOUND
                   "Object does not already exist within drive."), s)).
Proof.
  intros H. repeat split; intros.
  - unfold get_contents, try_except.
    now rewrite (bind_content_manager_absent _ _ _ H).
  - unfold new_file, try_except.
    unfold bind at 1. unfold get_self at 1.
    destruct is_dir, (provider_is (_config (self s)) "s3");
      cbn [negb orb andb]; unfold bind at 1;
      rewrite ?(create_empty_directory_absent _ _ _ H),
              ?(bind_content_manager_absent _ _ _ H);
      reflexivity.
  - unfold save_file, try_except. unfold bind at 1, lift.
    destruct (formatted_content content options_format content_format content_type).
    + reflexivity.
    + now rewrite (bind_content_manager_absent _ _ _ H).
  - unfold rename_file, try_except.
    now rewrite (bind_content_manager_absent _ _ _ H).
  - unfold delete_file, try_except.
    now rewrite (bind_content_manager_absent _ _ _ H).
  - unfold copy_file, try_except.
    now rewrite (bind_content_manager_absent _ _ _ H).
  - unfold check_file, try_except.
    now rewrite (bind_content_manager_absent _ _ _ H).
Qed.

(** ** delete_file *)

(** C3, as the code has it. When the store refuses the delete (the key is
    missing), [delete_file] answers with its own BAD_REQUEST wrapper around
    the cause, after the one delete call. *)
Theorem delete_file_failure_is_wrapped s drive_name b path e w :
  _content_managers (self s) !! drive_name = Some (Some b) ->
  obs_delete (binding_store b) (normalize_path path) (remote s) = (inl e, w) ->
  delete_file drive_name path s
  = (inl (HTTPError codes.BAD_REQUEST
            ("The following error occured when deleting the object: "
               +:+ str_exn e)),
     {| self := self s; remote := w;
        calls := calls s
                 ++ [CallDelete (binding_store b) (normalize_path path)] |}).
Proof.
  intros Hb Hdel. unfold delete_file, try_except.
  bound Hb.
  unfold delete_async, remote_call. now rewrite Hdel.
Qed.

(** ** rename_file and copy_file *)

(** C10. [rename_file] and [copy_file] strip the slashes of the source path
    only: whatever the store answers, the first call carries the destination
    as it was given; and when the store accepts, the head that follows and
    the [path] of the answer are that same destination. *)
Theorem destination_path_is_verbatim s drive_name b path dst :
  _content_managers (self s) !! drive_name = Some (Some b) ->
  let st := binding_store b in
  (exists rest,
      calls (rename_file drive_name path dst s).2
      = calls s ++ CallRename st (normalize_path path) dst :: rest)
  /\ (exists rest,
         calls (copy_file drive_name path dst s).2
         = calls s ++ CallCopy st (normalize_path path) dst :: rest)
  /\ (forall w1 w2 metadata,
         obs_rename st (normalize_path path) dst (remote s) = (inr tt, w1) ->
         obs_head st dst w1 = (inr metadata, w2) ->
         rename_file drive_name path dst s
         = (inr {| e_path := dst; e_content := None;
                   e_last_modified := isoformat (meta_last_modified metadata);
                   e_size := meta_size metadata |},
            {| self := self s; remote := w2;
               calls := calls s ++ [CallRename st (normalize_path path) dst;
                                    CallHead st dst] |}))
  /\ (forall w1 w2 metadata,
         obs_copy st (normalize_path path) dst (remote s) = (inr tt, w1) ->
         obs_head st dst w1 = (inr metadata, w2) ->
         copy_file drive_name path dst s
         = (inr {| e_path := dst; e_content := None;
                   e_last_modified := isoformat (meta_last_modified metadata);
                   e_size := meta_size metadata |},
            {| self := self s; remote := w2;
               calls := calls s ++ [CallCopy st (normalize_path path) dst;
                                    CallHead st dst] |})).
Proof.
  intros Hb st. split; [|split; [|split]].
  - unfold rename_file, try_except.
    bound Hb.
    unfold bind at 1. unfold rename_async, remote_call at 1. fold st.
    destruct (obs_rename st (normalize_path path) dst (remote s)) as [[e|[]] w1].
    + eexists; reflexivity.
    + bound Hb.
      unfold bind, head_async, remote_call. simpl. fold st.
      destruct (obs_head st dst w1) as [[e|metadata] w2]; simpl;
        rewrite <- app_assoc; eexists; reflexivity.
  - unfold copy_file, try_except.
    bound Hb.
    unfold bind at 1. unfold copy_async, remote_call at 1. fold st.
    destruct (obs_copy st (normalize_path path) dst (remote s)) as [[e|[]] w1].
    + eexists; reflexivity.
    + bound Hb.
      unfold bind, head_async, remote_call. simpl. fold st.
      destruct (obs_head st dst w1) as [[e|metadata] w2]; simpl;
        rewrite <- app_assoc; eexists; reflexivity.
  - intros w1 w2 metadata Hr Hh. unfold rename_file, try_except.
    bound Hb.
    unfold bind at 1. unfold rename_async, remote_call at 1. fold st.
    rewrite Hr. bound Hb.
    unfold bind, head_async, remote_call, ret. simpl. fold st. rewrite Hh.
    now rewrite <- app_assoc.
  - intros w1 w2 metadata Hr Hh. unfold copy_file, try_except.
    bound Hb.
    unfold bind at 1. unfold copy_async, remote_call at 1. fold st.
    rewrite Hr. bound Hb.
    unfold bind, head_async, remote_call, ret. simpl. fold st. rewrite Hh.
    now rewrite <- app_assoc.
Qed.

(** ** get_contents on a directory *)

(** The listing loop: [data] gathers every entry of every batch, [isDir]
    is raised by the first batch that has one, and [emptyDir] falls with
    it. *)
Lemma list_loop batches data isDir emptyDir :
  foldl list_step (data, isDir, emptyDir) batches
  = (data ++ map listed (concat batches),
     isDir || negb (is_nil (concat batches)),
     if negb isDir && negb (is_nil (concat batches)) then false else emptyDir).
Proof.
  revert data isDir emptyDir.
  induction batches as [|batch batches IH]; intros data isDir emptyDir.
  - simpl. now rewrite app_nil_r, orb_false_r, andb_false_r.
  - change (foldl list_step (data, isDir, emptyDir) (batch :: batches))
      with (foldl list_step (list_step (data, isDir, emptyDir) batch) batches).
    unfold list_step at 2.
    destruct isDir, batch as [|o batch]; simpl andb; cbv iota beta;
      rewrite IH; simpl; rewrite ?map_app, <- ?app_assoc, ?app_nil_r;
      try reflexivity.
Qed.



(** ** save_file *)

Lemma concat_slices (step n : nat) (b : bytes) :
  concat (map (fun offset => slice offset (offset + step) b)
              (map (fun k => (k * step)%nat) (seq 0 n)))
  = take (n * step) b.
Proof.
  induction n as [|n IH]; [reflexivity|].
  rewrite seq_S, !map_app, concat_app, IH. simpl.
  rewrite app_nil_r. unfold slice.
  replace (n * step + step - n * step)%nat with step by lia.
  rewrite take_take_drop. f_equal. lia.
Qed.

(** Joining the 512-byte slices gives the decoded bytes back. *)
Lemma byte_arrays_join (b : bytes) : concat (byte_arrays b) = b.
Proof.
  unfold byte_arrays, range_step. rewrite concat_slices.
  apply take_ge.
  pose proof (Nat.div_mod_eq (length b + 512 - 1) 512) as Hd.
  pose proof (Nat.mod_upper_bound (length b + 512 - 1) 512) as Hm.
  lia.
Qed.

Lemma formatted_content_negotiated content options_format content_format content_type :
  formatted_content content options_format content_format content_type
  = negotiated_content content options_format content_format content_type.
Proof.
  unfold formatted_content, negotiated_content.
  destruct (PyStr.eqb options_format "json"); [reflexivity|].
  destruct (PyStr.eqb options_format "base64"
            && (PyStr.eqb content_format "base64" || PyStr.eqb content_type "PDF"));
    [|reflexivity].
  destruct (b64decode content) as [e|raw]; [reflexivity|].
  simpl. now rewrite byte_arrays_join.
Qed.

(** The code's [if]/[elif] chain and the rules of the negotiation name the
    same payloads. *)
Lemma negotiated_formatted_content content options_format content_format
    content_type payload :
  negotiated content options_format content_format content_type payload
  <-> formatted_content content options_format content_format content_type
      = inr payload.
Proof.
  unfold formatted_content, PyStr.eqb. split.
  - intros [text encoded Hof Hjson Henc | raw Hof Hc Hdec
           | text encoded Hof Hc Henc | Hjson Hb64 Htext].
    + rewrite bool_decide_eq_true_2 by exact Hof.
      rewrite Hjson. simpl. now rewrite Henc.
    + subst options_format.
      rewrite (bool_decide_eq_false_2 ("base64" = "json")) by discriminate.
      rewrite (bool_decide_eq_true_2 ("base64" = "base64")) by reflexivity.
      assert (Hor : bool_decide (content_format = "base64")
                    || bool_decide (content_type = "PDF") = true).
      { destruct Hc as [Hc|Hc]; rewrite (bool_decide_eq_true_2 _ Hc);
          [reflexivity | apply orb_true_r]. }
      rewrite Hor, Hdec. simpl. now rewrite byte_arrays_join.
    + subst options_format content.
      rewrite (bool_decide_eq_false_2 ("text" = "json")) by discriminate.
      rewrite (bool_decide_eq_false_2 ("text" = "base64")) by discriminate.
      rewrite (bool_decide_eq_true_2 ("text" = "text")) by reflexivity.
      simpl. now rewrite Henc.
    + rewrite (bool_decide_eq_false_2 _ Hjson), (bool_decide_eq_false_2 _ Htext).
      assert (Hand : bool_decide (options_format = "base64")
                     && (bool_decide (content_format = "base64")
                         || bool_decide (content_type = "PDF")) = false).
      { apply not_true_iff_false. intros Hand. apply Hb64.
        apply andb_true_iff in Hand as [Hof Hc].
        apply bool_decide_eq_true_1 in Hof. split; [exact Hof|].
        apply orb_true_iff in Hc as [Hc|Hc]; apply bool_decide_eq_true_1 in Hc;
          [left | right]; exact Hc. }
      now rewrite Hand.
  - case_bool_decide as Hjson.
    { destruct (json_dumps_indent2 content) as [e|text] eqn:Hdumps;
        [discriminate|]. simpl.
      destruct (utf8_encode text) as [e|encoded] eqn:Henc; [discriminate|].
      intros H; inversion H; subst payload.
      exact (negotiated_json _ _ _ _ text encoded Hjson Hdumps Henc). }
    destruct (bool_decide (options_format = "base64")
              && (bool_decide (content_format = "base64")
                  || bool_decide (content_type = "PDF"))) eqn:Hb64.
    { apply andb_true_iff in Hb64 as [Hof Hc].
      apply bool_decide_eq_true_1 in Hof.
      destruct (b64decode content) as [e|raw] eqn:Hdec; [discriminate|].
      simpl. rewrite byte_arrays_join. intros H; inversion H; subst payload.
      apply (negotiated_base64 _ _ _ _ raw Hof); [|exact Hdec].
      apply orb_true_iff in Hc as [Hc|Hc]; apply bool_decide_eq_true_1 in Hc;
        [left | right]; exact Hc. }
    destruct (decide (options_format = "text")) as [Htext|Htext];
      [rewrite (bool_decide_eq_true_2 _ Htext)
      |rewrite (bool_decide_eq_false_2 _ Htext)].
    { destruct content as [|flag|n|text|bs|items|fields]; try discriminate. simpl.
      destruct (utf8_encode text) as [e|encoded] eqn:Henc; [discriminate|].
      intros H; inversion H; subst payload.
      exact (negotiated_text _ _ _ _ text encoded Htext eq_refl Henc). }
    intros H; inversion H; subst payload.
    apply negotiated_unmodified; [exact Hjson | | exact Htext].
    intros [Hof Hc]. apply not_true_iff_false in Hb64. apply Hb64.
    rewrite (bool_decide_eq_true_2 _ Hof).
    destruct Hc as [Hc|Hc]; rewrite (bool_decide_eq_true_2 _ Hc);
      [reflexivity | apply orb_true_r].
Qed.

(** C6. What [save_file] writes is fixed by the format negotiation.  The
    payload the code computes, 512-byte slicing included, is exactly the
    one the negotiation names: the JSON text of the content with an indent
    of 2, encoded in UTF-8; the base64 decoding of the content, as a raw
    byte buffer, when the format is base64 and the content is base64 or a
    PDF; the UTF-8 encoding of the content for text; the content itself
    otherwise; and the code computes no payload the negotiation does not
    name.  On a mounted drive that payload is put at the normalised path in
    overwrite mode, first of all calls, and when the put succeeds a head of
    the same path follows and gives the metadata of the answer. *)
Theorem save_file_format_negotiation s drive_name b path content
    options_format content_format content_type payload :
  _content_managers (self s) !! drive_name = Some (Some b) ->
  negotiated content options_format content_format content_type payload ->
  let st := binding_store b in
  let p := normalize_path path in
  formatted_content content options_format content_format content_type
  = inr payload
  /\ (forall computed,
         formatted_content content options_format content_format content_type
         = inr computed ->
         negotiated content options_format content_format content_type computed)
  /\ (exists rest,
         calls (save_file drive_name path content options_format
                  content_format content_type s).2
         = calls s ++ CallPut st p payload overwrite :: rest)
  /\ (forall w1 w2 metadata,
         obs_put st p payload overwrite (remote s) = (inr tt, w1) ->
         obs_head st p w1 = (inr metadata, w2) ->
         save_file drive_name path content options_format content_format
           content_type s
         = (inr {| e_path := p; e_content := Some content;
                   e_last_modified := isoformat (meta_last_modified metadata);
                   e_size := meta_size metadata |},
            {| self := self s; remote := w2;
               calls := calls s ++ [CallPut st p payload overwrite;
                                    CallHead st p] |})).
Proof.
  intros Hb Hn st p.
  assert (Hf : formatted_content content options_format content_format content_type
               = inr payload)
    by now apply negotiated_formatted_content.
  split; [exact Hf|]. split; [intros computed; apply negotiated_formatted_content|].
  split.
  - unfold save_file, try_except. unfold bind at 1, lift. rewrite Hf.
    bound Hb. unfold bind at 1. unfold put_async, remote_call at 1.
    fold st p.
    destruct (obs_put st p payload overwrite (remote s)) as [[e|[]] w1].
    + eexists; reflexivity.
    + bound Hb. unfold bind, head_async, remote_call. simpl. fold st p.
      destruct (obs_head st p w1) as [[e|metadata] w2]; simpl;
        rewrite <- app_assoc; eexists; reflexivity.
  - intros w1 w2 metadata Hput Hhead.
    unfold save_file, try_except. unfold bind at 1, lift. rewrite Hf.
    bound Hb. unfold bind at 1. unfold put_async, remote_call at 1.
    fold st p. rewrite Hput. bound Hb.
    unfold bind, head_async, remote_call, ret. simpl. fold st p.
    rewrite Hhead. now rewrite <- app_assoc.
Qed.

(** ** new_file on a directory *)

Lemma cached_client_registry m location c m' :
  cached_client m location = Some (c, m') ->
  _content_managers m' = _content_managers m /\ _config m' = _config m.
Proof.
  unfold cached_client. intros H.
  destruct (_s3_clients m) as [clients|]; [|discriminate].
  destruct (clients !! location).
  - now inversion H.
  - destruct (session_client location); inversion H; now subst.
Qed.

Lemma s3_client_of_cached s drive_name b c m' :
  _content_managers (self s) !! drive_name = Some (Some b) ->
  cached_client (self s) (binding_location b) = Some (c, m') ->
  s3_client_of drive_name s
  = (inr c, {| self := m'; remote := remote s; calls := calls s |}).
Proof.
  intros Hb Hc. unfold s3_client_of. bound Hb.
  unfold cached_client in Hc. destruct s as [m w cs]. simpl in *.
  unfold bind, get_self, set_self, lift, ret, raise. simpl.
  destruct (_s3_clients m) as [clients|]; [|discriminate].
  destruct (clients !! binding_location b) as [c0|].
  - now inversion Hc.
  - destruct (session_client (binding_location b)) as [e|c0];
      inversion Hc; now subst.
Qed.

Lemma create_empty_directory_done s drive_name b path c m' r w :
  _content_managers (self s) !! drive_name = Some (Some b) ->
  cached_client (self s) (binding_location b) = Some (c, m') ->
  s3_put_object c drive_name (path +:+ "/") (remote s) = (r, w) ->
  _create_empty_directory drive_name path s
  = (match r with
     | inr u => inr u
     | inl e =>
         inl (HTTPError codes.BAD_REQUEST
                ("The following error occured when creating the directory: "
                   +:+ str_exn e))
     end,
     {| self := m'; remote := w;
        calls := calls s ++ [CallS3PutObject c drive_name (path +:+ "/")] |}).
Proof.
  intros Hb Hc Hput. unfold _create_empty_directory, try_except.
  unfold bind at 1. rewrite (s3_client_of_cached _ _ _ _ _ Hb Hc).
  unfold remote_call. simpl. rewrite Hput. now destruct r.
Qed.

Lemma append_slash_differs (p : string) : p <> p +:+ "/".
Proof.
  induction p as [|c p IH]; [discriminate|].
  intros H. apply IH. now inversion H.
Qed.

(** C7. On a mounted drive of a manager configured for S3, [new_file] with
    [is_dir] true puts no object at the path: it creates the marker at the
    normalised path followed by a slash through the S3 client, and then
    issues its head at the normalised path itself, a key that is not the
    marker's.  What the caller gets is what the store holds at that other
    key: its metadata when an object sits there, and the BAD_REQUEST
    wrapper, with the marker created all the same, when none does. *)
Theorem new_file_directory_head_misses_marker s drive_name b path c m'
    head_answer w1 w2 :
  provider (_config (self s)) = Some "s3" ->
  _content_managers (self s) !! drive_name = Some (Some b) ->
  cached_client (self s) (binding_location b) = Some (c, m') ->
  let st := binding_store b in
  let p := normalize_path path in
  s3_put_object c drive_name (p +:+ "/") (remote s) = (inr tt, w1) ->
  obs_head st p w1 = (head_answer, w2) ->
  p <> p +:+ "/"
  /\ new_file drive_name path true s
     = (match head_answer with
        | inr metadata =>
            inr {| e_path := p; e_content := Some (PStr EmptyString);
                   e_last_modified := isoformat (meta_last_modified metadata);
                   e_size := meta_size metadata |}
        | inl e =>
            inl (HTTPError codes.BAD_REQUEST
                   ("The following error occured when creating the object: "
                      +:+ str_exn e))
        end,
        {| self := m'; remote := w2;
           calls := calls s ++ [CallS3PutObject c drive_name (p +:+ "/");
                                CallHead st p] |}).
Proof.
  intros Hs3 Hb Hc st p Hput Hhead.
  destruct (cached_client_registry _ _ _ _ Hc) as [Hreg Hcfg].
  split; [apply append_slash_differs|].
  unfold new_file, try_except. unfold bind at 1, get_self at 1.
  unfold provider_is. rewrite Hs3.
  rewrite (bool_decide_eq_true_2 _ eq_refl). simpl negb. simpl orb. simpl andb.
  cbv iota. unfold bind at 1. fold p.
  rewrite (create_empty_directory_done _ _ _ _ _ _ _ _ Hb Hc Hput).
  erewrite bind_content_manager_bound by (simpl; rewrite Hreg; exact Hb).
  unfold bind, head_async, remote_call, ret. simpl. fold st.
  rewrite Hhead. rewrite <- app_assoc.
  now destruct head_answer.
Qed.

(** ** Paths before dispatch *)

Lemma appends_ret {A} (a : A) : appends (ret a).
Proof. intros s. exists []. simpl. now rewrite app_nil_r. Qed.

Lemma appends_raise {A} e : appends (raise (A := A) e).
Proof. intros s. exists []. simpl. now rewrite app_nil_r. Qed.

Lemma appends_lift {A} (r : exn + A) : appends (lift r).
Proof. intros s. exists []. simpl. now rewrite app_nil_r. Qed.

Lemma appends_get_self : appends get_self.
Proof. intros s. exists []. simpl. now rewrite app_nil_r. Qed.

Lemma appends_set_self m : appends (set_self m).
Proof. intros s. exists []. simpl. now rewrite app_nil_r. Qed.

Lemma appends_remote_call {A} c (op : world -> (exn + A) * world) :
  appends (remote_call c op).
Proof.
  intros s. unfold remote_call. destruct (op (remote s)) as [r w].
  now exists [c].
Qed.

Lemma appends_bind {A B} (m : M A) (k : A -> M B) :
  appends m -> (forall a, appends (k a)) -> appends (bind m k).
Proof.
  intros Hm Hk s. unfold bind. destruct (Hm s) as [rest1 H1].
  destruct (m s) as [[e|a] s1]; simpl in H1.
  - now exists rest1.
  - destruct (Hk a s1) as [rest2 H2]. exists (rest1 ++ rest2).
    now rewrite H2, H1, app_assoc.
Qed.

Lemma appends_try_except {A} (m : M A) h :
  appends m -> (forall e, appends (h e)) -> appends (try_except m h).
Proof.
  intros Hm Hh s. unfold try_except. destruct (Hm s) as [rest1 H1].
  destruct (m s) as [[e|a] s1]; simpl in H1.
  - destruct (Hh e s1) as [rest2 H2]. exists (rest1 ++ rest2).
    now rewrite H2, H1, app_assoc.
  - now exists rest1.
Qed.

Ltac appends_all :=
  repeat first
    [ apply appends_ret | apply appends_raise | apply appends_lift
    | apply appends_get_self | apply appends_set_self
    | apply appends_remote_call
    | apply appends_bind; [|intros ?]
    | apply appends_try_except; [|intros ?]
    | match goal with
      | |- appends (match ?x with _ => _ end) => destruct x
      end ].

(** A remote call that opens a [try] block is the first call logged,
    whatever follows it. *)
Lemma first_call {A B} (c : call) (op : world -> (exn + A) * world)
    (k : A -> M B) (h : exn -> M B) s :
  (forall a, appends (k a)) -> (forall e, appends (h e)) ->
  exists rest,
    calls (try_except (bind (remote_call c op) k) h s).2 = calls s ++ c :: rest.
Proof.
  intros Hk Hh.
  destruct (appends_try_except (bind (remote_call c op) k) h) with (s := s)
    as [rest Hrest].
  - apply appends_bind; [apply appends_remote_call | exact Hk].
  - exact Hh.
  - assert (Hfirst : exists rest', rest = c :: rest').
    { revert Hrest. unfold try_except, bind, remote_call.
      destruct (op (remote s)) as [[e|a] w].
      - destruct (Hh e {| self := self s; remote := w;
                          calls := calls s ++ [c] |}) as [r Hr].
        rewrite Hr. simpl. rewrite <- app_assoc. intros H.
        apply app_inv_head in H. now exists r.
      - destruct (Hk a {| self := self s; remote := w;
                          calls := calls s ++ [c] |}) as [r Hr].
        destruct (k a _) as [[e|x] s2]; simpl in Hr.
        + destruct (Hh e s2) as [r' Hr']. rewrite Hr', Hr.
          rewrite <- !app_assoc. intros H.
          apply app_inv_head in H. now exists (r ++ r').
        + simpl. rewrite Hr, <- app_assoc. intros H.
          apply app_inv_head in H. now exists r. }
    destruct Hfirst as [rest' ->]. now exists rest'.
Qed.

Lemma check_object_appends drive_name path : appends (_check_object drive_name path).
Proof.
  unfold _check_object, s3_client_of, content_manager. appends_all.
Qed.

Lemma get_contents_first_call s drive_name b path :
  _content_managers (self s) !! drive_name = Some (Some b) ->
  exists rest,
    calls (get_contents drive_name path s).2
    = calls s ++ CallList (binding_store b) (normalize_contents_path path) :: rest.
Proof.
  intros Hb. unfold get_contents.
  match goal with
  | |- context [try_except (bind (content_manager drive_name) ?k) ?h] =>
      replace (try_except (bind (content_manager drive_name) k) h s)
        with (try_except (k b) h s)
        by (unfold try_except; now rewrite (bind_content_manager_bound _ _ _ _ Hb))
  end.
  cbv beta. unfold list_. apply first_call.
  - intros batches.
    pose proof check_object_appends.
    unfold get_async, head_async, content_manager. appends_all.
  - intros e. appends_all.
Qed.

Lemma new_file_first_call s drive_name b path :
  _content_managers (self s) !! drive_name = Some (Some b) ->
  exists rest,
    calls (new_file drive_name path false s).2
    = calls s ++ CallPut (binding_store b) (normalize_path path)
                   (PVal (PBytes [])) overwrite :: rest.
Proof.
  intros Hb. unfold new_file, try_except. unfold bind at 1, get_self at 1.
  cbn [negb orb]. unfold bind at 1. bound Hb.
  unfold put_async, remote_call at 1.
  destruct (obs_put (binding_store b) (normalize_path path) (PVal (PBytes []))
              overwrite (remote s)) as [[e|[]] w1].
  - eexists; reflexivity.
  - bound Hb. unfold bind, head_async, remote_call. simpl.
    destruct (obs_head (binding_store b) (normalize_path path) w1)
      as [[e|metadata] w2]; simpl; rewrite <- app_assoc; eexists; reflexivity.
Qed.

Lemma new_directory_first_call s drive_name b path c m' :
  provider (_config (self s)) = Some "s3" ->
  _content_managers (self s) !! drive_name = Some (Some b) ->
  cached_client (self s) (binding_location b) = Some (c, m') ->
  exists rest,
    calls (new_file drive_name path true s).2
    = calls s ++ CallS3PutObject c drive_name (normalize_path path +:+ "/")
                   :: rest.
Proof.
  intros Hs3 Hb Hc.
  destruct (cached_client_registry _ _ _ _ Hc) as [Hreg _].
  unfold new_file, try_except. unfold bind at 1, get_self at 1.
  unfold provider_is. rewrite Hs3.
  rewrite (bool_decide_eq_true_2 _ eq_refl). simpl negb. simpl orb. simpl andb.
  cbv iota. unfold bind at 1.
  destruct (s3_put_object c drive_name (normalize_path path +:+ "/") (remote s))
    as [r w1] eqn:Hput.
  rewrite (create_empty_directory_done _ _ _ _ _ _ _ _ Hb Hc Hput).
  destruct r as [e|[]].
  - eexists; reflexivity.
  - erewrite bind_content_manager_bound by (simpl; rewrite Hreg; exact Hb).
    unfold bind, head_async, remote_call. simpl.
    destruct (obs_head (binding_store b) (normalize_path path) w1)
      as [[e|metadata] w2]; simpl; rewrite <- app_assoc; eexists; reflexivity.
Qed.

Lemma save_file_first_call s drive_name b path content options_format
    content_format content_type payload :
  _content_managers (self s) !! drive_name = Some (Some b) ->
  formatted_content content options_format content_format content_type
  = inr payload ->
  exists rest,
    calls (save_file drive_name path content options_format content_format
             content_type s).2
    = calls s ++ CallPut (binding_store b) (normalize_path path) payload
                   overwrite :: rest.
Proof.
  intros Hb Hf. unfold save_file, try_except. unfold bind at 1, lift.
  rewrite Hf. bound Hb. unfold bind at 1. unfold put_async, remote_call at 1.
  destruct (obs_put (binding_store b) (normalize_path path) payload overwrite
              (remote s)) as [[e|[]] w1].
  - eexists; reflexivity.
  - bound Hb. unfold bind, head_async, remote_call. simpl.
    destruct (obs_head (binding_store b) (normalize_path path) w1)
      as [[e|metadata] w2]; simpl; rewrite <- app_assoc; eexists; reflexivity.
Qed.

Lemma rename_file_first_call s drive_name b path new_path :
  _content_managers (self s) !! drive_name = Some (Some b) ->
  exists rest,
    calls (rename_file drive_name path new_path s).2
    = calls s ++ CallRename (binding_store b) (normalize_path path) new_path
                   :: rest.
Proof.
  intros Hb. unfold rename_file, try_except. bound Hb.
  unfold bind at 1. unfold rename_async, remote_call at 1.
  destruct (obs_rename (binding_store b) (normalize_path path) new_path
              (remote s)) as [[e|[]] w1].
  - eexists; reflexivity.
  - bound Hb. unfold bind, head_async, remote_call. simpl.
    destruct (obs_head (binding_store b) new_path w1) as [[e|metadata] w2];
      simpl; rewrite <- app_assoc; eexists; reflexivity.
Qed.

Lemma copy_file_first_call s drive_name b path to_path :
  _content_managers (self s) !! drive_name = Some (Some b) ->
  exists rest,
    calls (copy_file drive_name path to_path s).2
    = calls s ++ CallCopy (binding_store b) (normalize_path path) to_path
                   :: rest.
Proof.
  intros Hb. unfold copy_file, try_except. bound Hb.
  unfold bind at 1. unfold copy_async, remote_call at 1.
  destruct (obs_copy (binding_store b) (normalize_path path) to_path
              (remote s)) as [[e|[]] w1].
  - eexists; reflexivity.
  - bound Hb. unfold bind, head_async, remote_call. simpl.
    destruct (obs_head (binding_store b) to_path w1) as [[e|metadata] w2];
      simpl; rewrite <- app_assoc; eexists; reflexivity.
Qed.

Lemma delete_file_only_call s drive_name b path :
  _content_managers (self s) !! drive_name = Some (Some b) ->
  calls (delete_file drive_name path s).2
  = calls s ++ [CallDelete (binding_store b) (normalize_path path)].
Proof.
  intros Hb. unfold delete_file, try_except. bound Hb.
  unfold delete_async, remote_call.
  now destruct (obs_delete (binding_store b) (normalize_path path) (remote s))
    as [[e|[]] w1].
Qed.

Lemma check_file_only_call s drive_name b path :
  _content_managers (self s) !! drive_name = Some (Some b) ->
  calls (check_file drive_name path s).2
  = calls s ++ [CallHead (binding_store b) (normalize_path path)].
Proof.
  intros Hb. unfold check_file, try_except. bound Hb.
  unfold bind, head_async, remote_call, ret.
  now destruct (obs_head (binding_store b) (normalize_path path) (remote s))
    as [[e|metadata] w1].
Qed.

(** C9, as the code has it.  The [path] argument of every content
    operation is stripped of its leading and trailing slashes before
    anything is dispatched: the stripped path neither starts nor ends with
    a slash, stripping it again changes nothing, the root path goes to the
    empty string (also through the root case of [get_contents], which
    agrees with stripping on every path), and the four spellings of [a/b]
    go to [a/b]; every operation behaves on a path exactly as on its
    stripped form; and on a mounted drive the first call of every
    operation carries the stripped path (followed by a slash for the
    directory marker of [new_file]).  The destination arguments
    [new_path] and [to_path] travel as they were given. *)
Theorem path_normalization_idempotent path :
  let p := normalize_path path in
  (PyStr.startswith "/" p = false
   /\ PyStr.endswith_char "/" p = false
   /\ normalize_path p = p
   /\ normalize_contents_path path = p)
  /\ (normalize_path "/" = EmptyString
      /\ normalize_contents_path "/" = EmptyString
      /\ normalize_path "/a/b/" = "a/b"
      /\ normalize_path "a/b/" = "a/b"
      /\ normalize_path "/a/b" = "a/b"
      /\ normalize_path "a/b" = "a/b")
  /\ (forall drive_name,
         get_contents drive_name path = get_contents drive_name p
         /\ new_file drive_name path = new_file drive_name p
         /\ save_file drive_name path = save_file drive_name p
         /\ rename_file drive_name path = rename_file drive_name p
         /\ delete_file drive_name path = delete_file drive_name p
         /\ check_file drive_name path = check_file drive_name p
         /\ copy_file drive_name path = copy_file drive_name p)
  /\ (forall s drive_name b,
         _content_managers (self s) !! drive_name = Some (Some b) ->
         let st := binding_store b in
         (exists rest,
             calls (get_contents drive_name path s).2
             = calls s ++ CallList st p :: rest)
         /\ (exists rest,
                calls (new_file drive_name path false s).2
                = calls s ++ CallPut st p (PVal (PBytes [])) overwrite :: rest)
         /\ (forall c m',
                provider (_config (self s)) = Some "s3" ->
                cached_client (self s) (binding_location b) = Some (c, m') ->
                exists rest,
                  calls (new_file drive_name path true s).2
                  = calls s ++ CallS3PutObject c drive_name (p +:+ "/") :: rest)
         /\ (forall content options_format content_format content_type payload,
                formatted_content content options_format content_format
                  content_type = inr payload ->
                exists rest,
                  calls (save_file drive_name path content options_format
                           content_format content_type s).2
                  = calls s ++ CallPut st p payload overwrite :: rest)
         /\ (forall new_path,
                exists rest,
                  calls (rename_file drive_name path new_path s).2
                  = calls s ++ CallRename st p new_path :: rest)
         /\ calls (delete_file drive_name path s).2
            = calls s ++ [CallDelete st p]
         /\ calls (check_file drive_name path s).2
            = calls s ++ [CallHead st p]
         /\ (forall to_path,
                exists rest,
                  calls (copy_file drive_name path to_path s).2
                  = calls s ++ CallCopy st p to_path :: rest)).
Proof.
  intros p. subst p. split; [|split; [|split]].
  - destruct (normalize_path_clean_ends path) as [Hhead Htail].
    repeat split; [exact Hhead | exact Htail | apply normalize_path_idempotent
                  | apply normalize_contents_path_strip].
  - repeat split; reflexivity.
  - intros drive_name. repeat split.
    + unfold get_contents. now rewrite normalize_contents_path_idempotent.
    + unfold new_file. now rewrite normalize_path_idempotent.
    + unfold save_file. now rewrite normalize_path_idempotent.
    + unfold rename_file. now rewrite normalize_path_idempotent.
    + unfold delete_file. now rewrite normalize_path_idempotent.
    + unfold check_file. now rewrite normalize_path_idempotent.
    + unfold copy_file. now rewrite normalize_path_idempotent.
  - intros s drive_name b Hb st. subst st. repeat split.
    + rewrite <- normalize_contents_path_strip.
      now apply get_contents_first_call.
    + now apply new_file_first_call.
    + intros c m' Hs3 Hc.
      exact (new_directory_first_call _ _ _ _ _ _ Hs3 Hb Hc).
    + intros. now eapply save_file_first_call.
    + intros. now apply rename_file_first_call.
    + now apply delete_file_only_call.
    + now apply check_file_only_call.
    + intros. now apply copy_file_first_call.
Qed.

(** ** The credential checks of [_call_provider] *)

(** C8. When the session token, the access key id or the secret access key
    is missing (unset or empty), [_call_provider] fails with a BAD_REQUEST
    whose reason names the first missing one, in that order, and the state
    is as it was: no request was fetched. *)
Theorem call_provider_missing_credentials s fuel url load_json method body
    params headers has_pagination :
  let cfg := _config (self s) in
  truthy (session_token cfg) = false
  \/ truthy (access_key_id cfg) = false
  \/ truthy (secret_access_key cfg) = false ->
  exists reason,
    _call_provider (S fuel) url load_json method body params headers
      has_pagination s
    = Some (inl (HTTPError codes.BAD_REQUEST reason), s)
    /\ reason
       = if negb (truthy (session_token cfg)) then
           "No session token specified. Please set DriversConfig.session_token in your user jupyter_server_config file."
         else if negb (truthy (access_key_id cfg)) then
           "No access key id specified. Please set DriversConfig.access_key_id in your user jupyter_server_config file."
         else
           "No secret access key specified. Please set DriversConfig.secret_access_key in your user jupyter_server_config file.".
Proof.
  intros cfg H. simpl. unfold missing_credential. fold cfg.
  destruct (truthy (session_token cfg)); simpl.
  - destruct (truthy (access_key_id cfg)); simpl.
    + destruct (truthy (secret_access_key cfg)); simpl.
      * destruct H as [H|[H|H]]; discriminate.
      * eexists; split; reflexivity.
    + eexists; split; reflexivity.
  - eexists; split; reflexivity.
Qed.

(** ** The HTTP client of [_call_provider] *)

(** The client [__init__] binds has no [fetch]: the lookup raises. *)
Lemma getattr_fetch_httpx :
  getattr_fetch httpx_AsyncClient
  = inl (AttributeError "'AsyncClient' object has no attribute 'fetch'").
Proof. reflexivity. Qed.

(** Every manager [__init__] builds holds that client. *)
Lemma init_client cfg m : __init__ cfg = inr m -> _client m = httpx_AsyncClient.
Proof.
  unfold __init__.
  destruct (provider_is cfg "s3");
    [destruct (truthy (access_key_id cfg) && truthy (secret_access_key cfg))|];
    intros H; inversion H; reflexivity.
Qed.

Lemma keeps_client_ret {A} (a : A) : keeps_client (ret a).
Proof. now intros s. Qed.

Lemma keeps_client_raise {A} e : keeps_client (raise (A := A) e).
Proof. now intros s. Qed.

Lemma keeps_client_lift {A} (r : exn + A) : keeps_client (lift r).
Proof. now intros s. Qed.

Lemma keeps_client_get_self : keeps_client get_self.
Proof. now intros s. Qed.

Lemma keeps_client_remote_call {A} c (op : world -> (exn + A) * world) :
  keeps_client (remote_call c op).
Proof. intros s. unfold remote_call. now destruct (op (remote s)). Qed.

Lemma keeps_client_bind {A B} (m : M A) (k : A -> M B) :
  keeps_client m -> (forall a, keeps_client (k a)) -> keeps_client (bind m k).
Proof.
  intros Hm Hk s. unfold bind. specialize (Hm s).
  destruct (m s) as [[e|a] s1]; simpl in Hm; [exact Hm|].
  now rewrite Hk.
Qed.

Lemma keeps_client_try_except {A} (m : M A) h :
  keeps_client m -> (forall e, keeps_client (h e)) ->
  keeps_client (try_except m h).
Proof.
  intros Hm Hh s. unfold try_except. specialize (Hm s).
  destruct (m s) as [[e|a] s1]; simpl in Hm; [|exact Hm].
  now rewrite Hh.
Qed.

Lemma keeps_client_content_manager drive_name :
  keeps_client (content_manager drive_name).
Proof.
  intros s. unfold content_manager, bind, get_self, ret, raise.
  now destruct (_content_managers (self s) !! drive_name) as [[b|]|].
Qed.

Lemma keeps_client_set_content_manager drive_name b :
  keeps_client (set_content_manager drive_name b).
Proof. now intros s. Qed.

Lemma keeps_client_s3_client_of drive_name :
  keeps_client (s3_client_of drive_name).
Proof.
  intros s. unfold s3_client_of, content_manager, bind, get_self, set_self,
    lift, ret, raise.
  destruct (_content_managers (self s) !! drive_name) as [[b|]|];
    try reflexivity.
  destruct (_s3_clients (self s)) as [clients|]; try reflexivity.
  destruct (clients !! binding_location b); try reflexivity.
  now destruct (session_client (binding_location b)).
Qed.

Ltac keeps_client :=
  repeat first
    [ apply keeps_client_ret | apply keeps_client_raise
    | apply keeps_client_lift | apply keeps_client_get_self
    | apply keeps_client_remote_call | apply keeps_client_content_manager
    | apply keeps_client_set_content_manager
    | apply keeps_client_s3_client_of
    | apply keeps_client_bind; [|intros ?]
    | apply keeps_client_try_except; [|intros ?]
    | match goal with
      | |- keeps_client (match ?x with _ => _ end) => destruct x
      end ].

(** Nothing rebinds [self._client]: every operation of the manager leaves
    it as [__init__] bound it. *)
Lemma operations_keep_client drive_name path :
  (forall provider region, keeps_client (mount_drive drive_name provider region))
  /\ keeps_client (unmount_drive drive_name)
  /\ keeps_client (get_contents drive_name path)
  /\ (forall is_dir, keeps_client (new_file drive_name path is_dir))
  /\ (forall content options_format content_format content_type,
         keeps_client (save_file drive_name path content options_format
                         content_format content_type))
  /\ (forall new_path, keeps_client (rename_file drive_name path new_path))
  /\ keeps_client (delete_file drive_name path)
  /\ keeps_client (check_file drive_name path)
  /\ (forall to_path, keeps_client (copy_file drive_name path to_path)).
Proof.
  repeat split; intros;
    unfold mount_drive, get_contents, new_file, save_file, rename_file,
      delete_file, check_file, copy_file, _check_object,
      _create_empty_directory, list_, get_async, head_async, put_async,
      delete_async, copy_async, rename_async;
    try solve [keeps_client].
  intros s. unfold unmount_drive, bind, get_self, set_self, raise.
  now destruct (bool_decide (is_Some (_content_managers (self s) !! drive_name))).
Qed.

(** With that client a call that has its credentials and its request
    stops at the lookup of [fetch], inside the [try]: the last handler
    turns the [AttributeError] into INTERNAL_SERVER_ERROR. *)
Lemma call_provider_lookup_fails s fuel url load_json method body params
    headers has_pagination request url' with_pagination body' headers' :
  _client (self s) = httpx_AsyncClient ->
  missing_credential (_config (self s)) = None ->
  prepare_request (_config (self s)) url load_json method body params headers
    has_pagination
  = inr (request, url', with_pagination, body', headers') ->
  _call_provider (S fuel) url load_json method body params headers
    has_pagination s
  = Some (inl (HTTPError codes.INTERNAL_SERVER_ERROR
                 ("Unknown error in '" +:+ url' +:+ "': "
                    +:+ str_exn (AttributeError
                                   "'AsyncClient' object has no attribute 'fetch'"))),
          s).
Proof.
  intros Hclient Hcred Hprep. cbn [_call_provider].
  now rewrite Hcred, Hprep, Hclient, getattr_fetch_httpx.
Qed.

(** C2. With the HTTP client [__init__] binds, an [httpx.AsyncClient],
    [_call_provider] follows no chain of pages and returns no
    concatenation: whatever the provider would serve, every call ends, at
    its first level, in an exception, with the state and the log of calls
    as they were, since none gets further than the lookup of the attribute
    [fetch], which that class does not have; a call that has its three
    credentials and its request prepared leaves with INTERNAL_SERVER_ERROR,
    the [AttributeError] quoted in the reason, and no request is sent. *)
Theorem call_provider_client_has_no_fetch s :
  _client (self s) = httpx_AsyncClient ->
  (forall fuel url load_json method body params headers has_pagination,
      exists e,
        _call_provider (S fuel) url load_json method body params headers
          has_pagination s = Some (inl e, s))
  /\ (forall fuel url load_json method body params headers has_pagination
        request url' with_pagination body' headers',
         missing_credential (_config (self s)) = None ->
         prepare_request (_config (self s)) url load_json method body params
           headers has_pagination
         = inr (request, url', with_pagination, body', headers') ->
         _call_provider (S fuel) url load_json method body params headers
           has_pagination s
         = Some (inl (HTTPError codes.INTERNAL_SERVER_ERROR
                        ("Unknown error in '" +:+ url' +:+ "': "
                           +:+ str_exn
                                 (AttributeError
                                    "'AsyncClient' object has no attribute 'fetch'"))),
                 s)).
Proof.
  intros Hclient. split.
  - intros fuel url load_json method body params headers has_pagination.
    cbn [_call_provider].
    destruct (missing_credential (_config (self s))) as [e|];
      [now exists e|].
    destruct (prepare_request (_config (self s)) url load_json method body
                params headers has_pagination)
      as [e|[[[[request url'] with_pagination] body'] headers']];
      [now exists e|].
    rewrite Hclient, getattr_fetch_httpx. eexists; reflexivity.
  - intros. eapply call_provider_lookup_fails; eassumption.
Qed.

End Properties.

(** * The Link header, read *)

(** The parser cuts the header at every comma and every entry at every
    semicolon: the next url of the first header is found, the one of the
    second, which holds a comma, is not. *)
Lemma next_link_cuts_at_commas :
  next_link (Some Example.link_plain)
  = inr (Some "https://api.example/items?page=2")
  /\ next_link (Some Example.link_with_comma) = inr (Some "&page=2").
Proof. split; vm_compute; reflexivity. Qed.

(** * The scenario, run *)

(** C1. Mounting [bucket-a] a second time leaves the binding of the first
    mount in place, but the error that reaches the caller is the
    BAD_REQUEST of the handler around the whole body, with the conflict
    only quoted in its reason: the CONFLICT raised for a mounted drive is
    caught by the method's own [except Exception]. *)
Theorem second_mount_reports_bad_request :
  _content_managers (self Example.mounted) !! "bucket-a"
  = Some (Some Example.bucket_a)
  /\ mount_drive "bucket-a" "s3" "eu-north-1" Example.mounted
     = (inl (HTTPError codes.BAD_REQUEST
               "The following error occured when mouting the drive: HTTP 409: Drive already mounted."),
        Example.mounted)
  /\ codes.BAD_REQUEST <> codes.CONFLICT.
Proof.
  split; [reflexivity|]. split; [|discriminate].
  exact (mount_drive_bound Example.mounted "bucket-a" "s3" "eu-north-1"
           Example.bucket_a eq_refl).
Qed.

(** C3, refuted as stated: deleting a key the bucket does not hold is not
    answered with NOT_FOUND. *)
Lemma delete_file_missing_key_not_404 :
  _content_managers (self Example.mounted) !! "bucket-a"
  = Some (Some Example.bucket_a)
  /\ Sim.find_object "bucket-a" "missing.txt" (remote Example.mounted) = None
  /\ ~ exists reason s',
        delete_file "bucket-a" "missing.txt" Example.mounted
        = (inl (HTTPError codes.NOT_FOUND reason), s').
Proof.
  split; [reflexivity|]. split; [reflexivity|].
  intros (reason & s' & H). apply (f_equal fst) in H.
  vm_compute in H. inversion H.
Qed.

Lemma delete_file_failure_is_wrapped_witness :
  delete_file "bucket-a" "/missing.txt" Example.mounted
  = (inl (HTTPError codes.BAD_REQUEST
            "The following error occured when deleting the object: Object at location missing.txt not found"),
     {| self := self Example.mounted; remote := remote Example.mounted;
        calls := [CallDelete "bucket-a" "missing.txt"] |}).
Proof.
  exact (delete_file_failure_is_wrapped Example.mounted "bucket-a"
           Example.bucket_a "/missing.txt" (Sim.not_found "missing.txt")
           (remote Example.mounted) eq_refl eq_refl).
Defined.

(** C4, refuted as stated: on a drive that was never mounted the error of
    [get_contents] is not NOT_FOUND. *)
Lemma unmounted_get_contents_not_404 :
  _content_managers (self Example.fresh) !! "bucket-a" = None
  /\ ~ exists reason s',
        get_contents "bucket-a" "docs/readme.md" Example.fresh
        = (inl (HTTPError codes.NOT_FOUND reason), s').
Proof.
  split; [reflexivity|].
  intros (reason & s' & H). apply (f_equal fst) in H.
  vm_compute in H. inversion H.
Qed.

Lemma unmounted_drive_fails_without_io_witness :
  delete_file "bucket-a" "docs/readme.md" Example.fresh
  = (inl (HTTPError codes.BAD_REQUEST
            "The following error occured when deleting the object: 'bucket-a'"),
     Example.fresh)
  /\ new_file "bucket-a" "dir1" true Example.fresh
     = (inl (HTTPError codes.BAD_REQUEST
               "The following error occured when creating the object: HTTP 400: The following error occured when creating the directory: 'bucket-a'"),
        Example.fresh)
  /\ save_file "bucket-a" "notes.txt" (PStr "words") "text" "text" "file"
       Example.fresh
     = (inl (HTTPError codes.BAD_REQUEST
               "The following error occured when saving the file: 'bucket-a'"),
        Example.fresh)
  /\ save_file "bucket-a" "notes.txt" (PInt 3) "text" "text" "file"
       Example.fresh
     = (inl (HTTPError codes.BAD_REQUEST
               "The following error occured when saving the file: encode"),
        Example.fresh)
  /\ check_file "bucket-a" "docs/readme.md" Example.fresh
     = (inl (HTTPError codes.NOT_FOUND
               "Object does not already exist within drive."),
        Example.fresh).
Proof.
  destruct (unmounted_drive_fails_without_io Example.fresh "bucket-a" eq_refl)
    as (_ & Hnew & Hsave & _ & Hdelete & _ & Hcheck).
  split; [apply Hdelete|]. split; [apply (Hnew "dir1" true)|].
  split; [apply (Hsave "notes.txt" (PStr "words") "text" "text" "file")|].
  split; [apply (Hsave "notes.txt" (PInt 3) "text" "text" "file")|].
  apply Hcheck.
Defined.


Lemma save_file_format_negotiation_witness :
  (let saved :=
     save_file "bucket-a" "/docs/hello.bin" (PStr "aGVsbG8=") "base64" "base64"
       "file" Example.mounted in
   saved.1
   = inr {| e_path := "docs/hello.bin"; e_content := Some (PStr "aGVsbG8=");
            e_last_modified := "2024-05-01T12:00:00+00:00"; e_size := 5 |}
   /\ calls saved.2
      = [CallPut "bucket-a" "docs/hello.bin"
           (PBytesIO (String.list_byte_of_string "hello")) overwrite;
         CallHead "bucket-a" "docs/hello.bin"])
  /\ (let saved :=
        save_file "bucket-a" "/docs/hello.txt" (PStr "hello") "text" "text"
          "file" Example.mounted in
      saved.1
      = inr {| e_path := "docs/hello.txt"; e_content := Some (PStr "hello");
               e_last_modified := "2024-05-01T12:00:00+00:00"; e_size := 5 |}
      /\ calls saved.2
         = [CallPut "bucket-a" "docs/hello.txt"
              (PVal (PBytes (String.list_byte_of_string "hello"))) overwrite;
            CallHead "bucket-a" "docs/hello.txt"])
  /\ (let saved :=
        save_file "bucket-a" "/docs/seven.json" (PInt 7) "json" "text" "file"
          Example.mounted in
      saved.1
      = inr {| e_path := "docs/seven.json"; e_content := Some (PInt 7);
               e_last_modified := "2024-05-01T12:00:00+00:00"; e_size := 1 |}
      /\ calls saved.2
         = [CallPut "bucket-a" "docs/seven.json"
              (PVal (PBytes (String.list_byte_of_string "7"))) overwrite;
            CallHead "bucket-a" "docs/seven.json"])
  /\ (let saved :=
        save_file "bucket-a" "/docs/raw.bin"
          (PBytes (String.list_byte_of_string "raw")) "base64" "text" "file"
          Example.mounted in
      saved.1
      = inr {| e_path := "docs/raw.bin";
               e_content := Some (PBytes (String.list_byte_of_string "raw"));
               e_last_modified := "2024-05-01T12:00:00+00:00"; e_size := 3 |}
      /\ calls saved.2
         = [CallPut "bucket-a" "docs/raw.bin"
              (PVal (PBytes (String.list_byte_of_string "raw"))) overwrite;
            CallHead "bucket-a" "docs/raw.bin"]).
Proof.
  cbv zeta. split; [|split; [|split]].
  - destruct (save_file_format_negotiation Example.mounted "bucket-a"
                Example.bucket_a "/docs/hello.bin" (PStr "aGVsbG8=") "base64"
                "base64" "file" (PBytesIO (String.list_byte_of_string "hello")))
      as (_ & _ & _ & H).
    + reflexivity.
    + apply negotiated_base64; [reflexivity | left; reflexivity | reflexivity].
    + rewrite (H _ _ _ eq_refl eq_refl). split; reflexivity.
  - destruct (save_file_format_negotiation Example.mounted "bucket-a"
                Example.bucket_a "/docs/hello.txt" (PStr "hello") "text" "text"
                "file" (PVal (PBytes (String.list_byte_of_string "hello"))))
      as (_ & _ & _ & H).
    + reflexivity.
    + apply (negotiated_text _ _ _ _ "hello"); reflexivity.
    + rewrite (H _ _ _ eq_refl eq_refl). split; reflexivity.
  - destruct (save_file_format_negotiation Example.mounted "bucket-a"
                Example.bucket_a "/docs/seven.json" (PInt 7) "json" "text"
                "file" (PVal (PBytes (String.list_byte_of_string "7"))))
      as (_ & _ & _ & H).
    + reflexivity.
    + apply (negotiated_json _ _ _ _ "7"); reflexivity.
    + rewrite (H _ _ _ eq_refl eq_refl). split; reflexivity.
  - destruct (save_file_format_negotiation Example.mounted "bucket-a"
                Example.bucket_a "/docs/raw.bin"
                (PBytes (String.list_byte_of_string "raw")) "base64" "text"
                "file" (PVal (PBytes (String.list_byte_of_string "raw"))))
      as (_ & _ & _ & H).
    + reflexivity.
    + apply negotiated_unmodified; [discriminate | | discriminate].
      intros [_ [Hc|Hc]]; discriminate.
    + rewrite (H _ _ _ eq_refl eq_refl). split; reflexivity.
Defined.

Lemma new_file_directory_head_misses_marker_witness :
  let created := new_file "bucket-a" "dir1" true Example.mounted in
  created.1
  = inl (HTTPError codes.BAD_REQUEST
           "The following error occured when creating the object: Object at location dir1 not found")
  /\ calls created.2
     = [CallS3PutObject "eu-north-1" "bucket-a" "dir1/";
        CallHead "bucket-a" "dir1"]
  /\ (exists marker,
         Sim.find_object "bucket-a" "dir1/" (remote created.2) = Some marker)
  /\ Sim.find_object "bucket-a" "dir1" (remote created.2) = None.
Proof.
  destruct (new_file_directory_head_misses_marker Example.mounted "bucket-a"
              Example.bucket_a "dir1" "eu-north-1" _ _ _ _
              eq_refl eq_refl eq_refl eq_refl eq_refl) as [_ Hnew].
  cbv zeta. rewrite Hnew. cbn [fst snd].
  split; [reflexivity|]. split; [reflexivity|].
  split; [eexists; reflexivity | reflexivity].
Defined.

Lemma call_provider_missing_credentials_witness :
  _call_provider 1 "items" true "GET" None None None true Example.no_token
  = Some (inl (HTTPError codes.BAD_REQUEST
                 "No session token specified. Please set DriversConfig.session_token in your user jupyter_server_config file."),
          Example.no_token).
Proof.
  destruct (call_provider_missing_credentials Example.no_token 0 "items" true
              "GET" None None None true (or_introl eq_refl))
    as (reason & H & ->).
  exact H.
Defined.

Lemma destination_path_is_verbatim_witness :
  let renamed :=
    rename_file "bucket-a" "/docs/readme.md" "/docs/README.md/"
      Example.mounted in
  renamed.1
  = inr {| e_path := "/docs/README.md/"; e_content := None;
           e_last_modified := "2024-05-01T12:00:00+00:00"; e_size := 5 |}
  /\ calls renamed.2
     = [CallRename "bucket-a" "docs/readme.md" "/docs/README.md/";
        CallHead "bucket-a" "/docs/README.md/"].
Proof.
  destruct (destination_path_is_verbatim Example.mounted "bucket-a"
              Example.bucket_a "/docs/readme.md" "/docs/README.md/" eq_refl)
    as (_ & _ & H & _).
  simpl. rewrite (H _ _ _ eq_refl eq_refl). split; reflexivity.
Defined.

Lemma call_provider_client_has_no_fetch_witness :
  __init__ Example.config = inr (self Example.fresh)
  /\ _call_provider 3 "items" true "GET" None None None true Example.fresh
     = Some (inl (HTTPError codes.INTERNAL_SERVER_ERROR
                    "Unknown error in 'https://api.example/items?per_page=100': 'AsyncClient' object has no attribute 'fetch'"),
             Example.fresh).
Proof.
  split; [reflexivity|].
  destruct (call_provider_client_has_no_fetch Example.fresh eq_refl) as [_ H].
  exact (H 2%nat "items" true "GET" None None None true
           (Example.get "https://api.example/items?per_page=100")
           "https://api.example/items?per_page=100" true None None
           eq_refl eq_refl).
Defined.

(** C9, refuted as stated: the destination of [rename_file] is an incoming
    path, and it reaches the store, and the head that follows, with its
    leading and trailing slashes. *)
Lemma rename_destination_is_not_stripped :
  calls (rename_file "bucket-a" "/docs/readme.md" "/docs/README.md/"
           Example.mounted).2
  = [CallRename "bucket-a" "docs/readme.md" "/docs/README.md/";
     CallHead "bucket-a" "/docs/README.md/"]
  /\ normalize_path "/docs/README.md/" = "docs/README.md"
  /\ "/docs/README.md/" <> normalize_path "/docs/README.md/".
Proof.
  split; [reflexivity|]. split; [reflexivity|]. discriminate.
Qed.

Lemma path_normalization_idempotent_witness :
  calls (delete_file "bucket-a" "/docs/readme.md/" Example.mounted).2
  = [CallDelete "bucket-a" "docs/readme.md"]
  /\ calls (check_file "bucket-a" "/docs/readme.md/" Example.mounted).2
     = [CallHead "bucket-a" "docs/readme.md"]
  /\ get_contents "bucket-a" "/docs/readme.md/"
     = get_contents "bucket-a" "docs/readme.md".
Proof.
  destruct (path_normalization_idempotent (C := simulated) "/docs/readme.md/")
    as (_ & _ & Hsame & Hfirst).
  destruct (Hfirst Example.mounted "bucket-a" Example.bucket_a eq_refl)
    as (_ & _ & _ & _ & _ & Hdelete & Hcheck & _).
  split; [exact Hdelete|]. split; [exact Hcheck|]. apply Hsame.
Defined.

(** * Further properties *)

Section Registry.
Context `{C : Collaborators}.

Implicit Types (s : state) (b : binding) (e : exn).

(** [mount_drive] on a name that is not bound: the outcome follows the
    store constructor. *)
Lemma mount_drive_unbound s drive_name provider region :
  not_mounted (self s) drive_name = true ->
  mount_drive drive_name provider region s
  = match requested_store (_config (self s)) drive_name provider region with
    | Some (inr st) => (inr tt, bound_to s drive_name st region)
    | Some (inl e) =>
        (inl (HTTPError codes.BAD_REQUEST
                ("The following error occured when mouting the drive: "
                   +:+ str_exn e)), s)
    | None =>
        (inl (HTTPError codes.BAD_REQUEST
                ("The following error occured when mouting the drive: "
                   +:+ str_exn (UnboundLocalError "store"))), s)
    end.
Proof.
  intros Hn. unfold mount_drive, requested_store, try_except, bind, get_self.
  rewrite Hn.
  destruct (PyStr.eqb provider "s3");
    [|destruct (PyStr.eqb provider "gcs");
      [|destruct (PyStr.eqb provider "http")]];
    unfold lift, raise;
    try match goal with
        | |- context [store_from_url ?k ?u ?c] =>
            destruct (store_from_url k u c)
        end;
    reflexivity.
Qed.

Lemma mount_drive_mounted s drive_name provider region :
  not_mounted (self s) drive_name = false ->
  mount_drive drive_name provider region s
  = (inl (HTTPError codes.BAD_REQUEST
            ("The following error occured when mouting the drive: "
               +:+ str_exn (HTTPError codes.CONFLICT "Drive already mounted."))),
     s).
Proof.
  intros Hn. unfold mount_drive, try_except, bind, get_self.
  now rewrite Hn.
Qed.

(** X1. [mount_drive] never calls the store and never leaves a half-made
    binding: either it fails, always with BAD_REQUEST and with the state
    exactly as it was, or it binds the name to a store with the given
    region as location and changes no other name, nor the world, nor the
    call log. *)
Theorem mount_drive_all_or_nothing s drive_name provider region :
  let out := mount_drive drive_name provider region s in
  match out.1 with
  | inl e => (exists reason, e = HTTPError codes.BAD_REQUEST reason) /\ out.2 = s
  | inr _ =>
      (exists st,
          _content_managers (self out.2) !! drive_name
          = Some (Some {| binding_store := st; binding_location := region |}))
      /\ (forall other, other <> drive_name ->
             _content_managers (self out.2) !! other
             = _content_managers (self s) !! other)
      /\ remote out.2 = remote s /\ calls out.2 = calls s
      /\ _config (self out.2) = _config (self s)
  end.
Proof.
  intros out. subst out.
  destruct (not_mounted (self s) drive_name) eqn:Hn.
  - rewrite (mount_drive_unbound _ _ _ _ Hn).
    destruct (requested_store (_config (self s)) drive_name provider region)
      as [[e|st]|]; simpl.
    + split; [eexists; reflexivity | reflexivity].
    + split; [eexists; apply lookup_insert_eq|].
      split; [intros other Ho; now apply lookup_insert_ne|].
      repeat split.
    + split; [eexists; reflexivity | reflexivity].
  - rewrite (mount_drive_mounted _ _ _ _ Hn). simpl.
    split; [eexists; reflexivity | reflexivity].
Qed.

(** X2. A provider name other than [s3], [gcs] and [http] is not refused
    as such: on a free drive name the read of the unbound local [store]
    raises, and the caller gets BAD_REQUEST around that error, with nothing
    bound. *)
Theorem mount_drive_unknown_provider s drive_name provider region :
  _content_managers (self s) !! drive_name = None ->
  provider <> "s3" -> provider <> "gcs" -> provider <> "http" ->
  mount_drive drive_name provider region s
  = (inl (HTTPError codes.BAD_REQUEST
            ("The following error occured when mouting the drive: "
               +:+ str_exn (UnboundLocalError "store"))), s).
Proof.
  intros Hfree H1 H2 H3.
  rewrite mount_drive_unbound by (unfold not_mounted; now rewrite Hfree).
  unfold requested_store, PyStr.eqb.
  now rewrite !bool_decide_eq_false_2.
Qed.

(** X3. [unmount_drive] on a name the registry does not hold fails with
    NOT_FOUND and changes nothing; on a name it holds it removes that name
    only, and touches neither the world nor the call log: the remote data
    stays. *)
Theorem unmount_drive_removes_only_the_binding s drive_name :
  match _content_managers (self s) !! drive_name with
  | None =>
      unmount_drive drive_name s
      = (inl (HTTPError codes.NOT_FOUND "Drive is not mounted or doesn't exist."),
         s)
  | Some _ =>
      exists s',
        unmount_drive drive_name s = (inr tt, s')
        /\ _content_managers (self s') !! drive_name = None
        /\ (forall other, other <> drive_name ->
               _content_managers (self s') !! other
               = _content_managers (self s) !! other)
        /\ remote s' = remote s /\ calls s' = calls s
  end.
Proof.
  unfold unmount_drive, bind, get_self, set_self, raise.
  destruct (_content_managers (self s) !! drive_name) as [v|] eqn:E.
  - rewrite bool_decide_eq_true_2 by eauto.
    eexists. split; [reflexivity|]. simpl.
    split; [apply lookup_delete_eq|].
    split; [intros other Ho; now apply lookup_delete_ne|].
    split; reflexivity.
  - rewrite bool_decide_eq_false_2; [reflexivity|].
    intros [v Hv]. congruence.
Qed.

(** X4. Mounting a free name and unmounting it again gives back the state
    the manager started from. *)
Theorem mount_then_unmount_restores s s1 drive_name provider region :
  _content_managers (self s) !! drive_name = None ->
  mount_drive drive_name provider region s = (inr tt, s1) ->
  unmount_drive drive_name s1 = (inr tt, s).
Proof.
  intros Hfree Hmount.
  rewrite mount_drive_unbound in Hmount
    by (unfold not_mounted; now rewrite Hfree).
  destruct (requested_store (_config (self s)) drive_name provider region)
    as [[e|st]|]; try discriminate.
  inversion Hmount; subst s1; clear Hmount.
  unfold unmount_drive, bind, get_self, set_self, bound_to. simpl.
  rewrite lookup_insert_eq.
  rewrite bool_decide_eq_true_2 by eauto.
  rewrite delete_insert_id by exact Hfree.
  destruct s as [[cfg cm cl] w cs]. reflexivity.
Qed.

(** X5. After a successful unmount the name is free again: a new mount of
    it is decided by the store constructor alone, and never meets the
    conflict branch. *)
Theorem remount_after_unmount s s1 drive_name provider region :
  unmount_drive drive_name s = (inr tt, s1) ->
  mount_drive drive_name provider region s1
  = match requested_store (_config (self s1)) drive_name provider region with
    | Some (inr st) => (inr tt, bound_to s1 drive_name st region)
    | Some (inl e) =>
        (inl (HTTPError codes.BAD_REQUEST
                ("The following error occured when mouting the drive: "
                   +:+ str_exn e)), s1)
    | None =>
        (inl (HTTPError codes.BAD_REQUEST
                ("The following error occured when mouting the drive: "
                   +:+ str_exn (UnboundLocalError "store"))), s1)
    end.
Proof.
  intros Hun. apply mount_drive_unbound.
  unfold unmount_drive, bind, get_self, set_self, raise in Hun.
  destruct (bool_decide (is_Some (_content_managers (self s) !! drive_name)));
    [|discriminate].
  inversion Hun; subst s1. unfold not_mounted. simpl.
  now rewrite lookup_delete_eq.
Qed.

End Registry.

Section Contents.
Context `{C : Collaborators}.

Implicit Types (s : state) (b : binding) (e : exn).

Ltac bound_by H := erewrite bind_content_manager_bound by exact H.

(** The download loop: the chunks are joined in order, and [emptyDir]
    survives only when every chunk is empty. *)
Lemma get_loop chunks content emptyDir :
  foldl get_step (content, emptyDir) chunks
  = (content ++ concat chunks, emptyDir && is_nil (concat chunks)).
Proof.
  revert content emptyDir.
  induction chunks as [|buf chunks IH]; intros content emptyDir.
  - simpl. now rewrite app_nil_r, andb_true_r.
  - change (foldl get_step (content, emptyDir) (buf :: chunks))
      with (foldl get_step (get_step (content, emptyDir) buf) chunks).
    unfold get_step at 2. rewrite IH. simpl concat.
    rewrite <- app_assoc.
    destruct emptyDir, buf; reflexivity.
Qed.

Lemma check_object_done s drive_name b path c m' r w :
  _content_managers (self s) !! drive_name = Some (Some b) ->
  cached_client (self s) (binding_location b) = Some (c, m') ->
  s3_list_objects_v2 c drive_name (path +:+ "/") (remote s) = (r, w) ->
  _check_object drive_name path s
  = (match r with
     | inr isDir => inr isDir
     | inl e =>
         inl (HTTPError codes.BAD_REQUEST
                ("The following error occured when retriving the drive location: "
                   +:+ str_exn e))
     end,
     {| self := m'; remote := w;
        calls := calls s ++ [CallS3ListObjectsV2 c drive_name (path +:+ "/")] |}).
Proof.
  intros Hb Hc Hls. unfold _check_object, try_except.
  unfold bind at 1. rewrite (s3_client_of_cached _ _ _ _ _ Hb Hc).
  unfold remote_call. simpl. rewrite Hls. now destruct r.
Qed.

Lemma check_object_without_clients s drive_name b path :
  _content_managers (self s) !! drive_name = Some (Some b) ->
  _s3_clients (self s) = None ->
  _check_object drive_name path s
  = (inl (HTTPError codes.BAD_REQUEST
            ("The following error occured when retriving the drive location: "
               +:+ str_exn (AttributeError "_s3_clients"))), s).
Proof.
  intros Hb Hnone. unfold _check_object, try_except, s3_client_of.
  unfold bind at 1. bound_by Hb.
  unfold bind, get_self, raise. now rewrite Hnone.
Qed.

(** The state after the three calls that read one object. *)
Lemma get_contents_reads s drive_name b path batches chunks metadata text
    w1 w2 w3 :
  _content_managers (self s) !! drive_name = Some (Some b) ->
  let st := binding_store b in
  let p := normalize_contents_path path in
  PyStr.is_empty p = false ->
  obs_list st p (remote s) = (inr batches, w1) ->
  concat batches = [] ->
  obs_get st p w1 = (inr chunks, w2) ->
  obs_head st p w2 = (inr metadata, w3) ->
  (if mem (splitext_ext p) base64_extensions
   then inr (b64encode (concat chunks))
   else utf8_decode (concat chunks)) = inr text ->
  let file := File {| e_path := p; e_content := Some (PStr text);
                      e_last_modified := isoformat (meta_last_modified metadata);
                      e_size := meta_size metadata |} in
  let s3 := {| self := self s; remote := w3;
               calls := calls s ++ [CallList st p; CallGet st p; CallHead st p] |} in
  get_contents drive_name path s
  = try_except
      (fun s0 =>
         if is_nil (concat chunks) then
           bind (_check_object drive_name p)
             (fun _ =>
                ret (if PyStr.lacks "."%char (basename p)
                        || negb (mem (splitext_ext (basename p)) ext_list)
                     then Listing [] else file)) s0
         else ret file s0)
      (fun e =>
         raise (HTTPError codes.BAD_REQUEST
                  ("The following error occured when retrieving the contents: "
                     +:+ str_exn e)))
      s3.
Proof.
  intros Hb st p Hp Hlist Hnil Hget Hhead Htext file s3.
  unfold get_contents, try_except. fold p.
  bound_by Hb. unfold bind at 1. unfold list_, remote_call at 1. fold st.
  rewrite Hlist, list_loop, Hnil.
  change (is_nil (@nil (ObjectMeta datetime))) with true.
  change (negb true) with false. change (false || false) with false.
  change (negb false) with true. rewrite Hp.
  change (true && negb false) with true. cbv iota.
  unfold bind at 1. bound_by Hb. cbv beta.
  unfold bind at 1. unfold get_async, remote_call at 1.
  cbn [remote self calls]. fold st. rewrite Hget, get_loop.
  change (true && false) with false. cbv iota. cbn [app andb].
  bound_by Hb.
  unfold bind at 1. unfold head_async, remote_call at 1.
  cbn [remote self calls]. fold st. rewrite Hhead.
  unfold bind at 1.
  assert (Hproc : forall s0,
             (if mem (splitext_ext p) base64_extensions
              then ret (b64encode (concat chunks))
              else lift (utf8_decode (concat chunks))) s0
             = (@inr exn string text, s0)).
  { intros s0. destruct (mem (splitext_ext p) base64_extensions);
      unfold ret, lift; [inversion Htext; reflexivity | now rewrite Htext]. }
  rewrite Hproc. unfold ret at 1. subst s3 file.
  rewrite <- !app_assoc. cbn [app].
  destruct (is_nil (concat chunks)); reflexivity.
Qed.

(** X6. A path with nothing listed under it and an object with content at
    it is read as a file: one list, one get, one head; the chunks of the
    download are joined in order, rendered in base64 for the image and PDF
    extensions and decoded as UTF-8 otherwise; size and date are those of
    the head. *)
Theorem get_contents_file s drive_name b path batches chunks metadata text
    w1 w2 w3 :
  _content_managers (self s) !! drive_name = Some (Some b) ->
  let st := binding_store b in
  let p := normalize_contents_path path in
  PyStr.is_empty p = false ->
  obs_list st p (remote s) = (inr batches, w1) ->
  concat batches = [] ->
  obs_get st p w1 = (inr chunks, w2) ->
  concat chunks <> [] ->
  obs_head st p w2 = (inr metadata, w3) ->
  (if mem (splitext_ext p) base64_extensions
   then inr (b64encode (concat chunks))
   else utf8_decode (concat chunks)) = inr text ->
  get_contents drive_name path s
  = (inr (File {| e_path := p; e_content := Some (PStr text);
                  e_last_modified := isoformat (meta_last_modified metadata);
                  e_size := meta_size metadata |}),
     {| self := self s; remote := w3;
        calls := calls s ++ [CallList st p; CallGet st p; CallHead st p] |}).
Proof.
  intros Hb st p Hp Hlist Hnil Hget Hne Hhead Htext.
  rewrite (get_contents_reads s drive_name b path batches chunks metadata text
             w1 w2 w3 Hb Hp Hlist Hnil Hget Hhead Htext).
  unfold try_except.
  destruct (concat chunks); [congruence | reflexivity].
Qed.

(** X7. An object without content at a path with nothing listed under it
    is reported by its name: as an empty directory when the last segment
    has no dot or an extension outside the known list, as an empty file
    otherwise.  The S3 listing made after that decides nothing: the answer
    is the same whether it finds entries or not. *)
Theorem get_contents_empty_object s drive_name b path batches chunks metadata
    text c m' isDir w1 w2 w3 w4 :
  _content_managers (self s) !! drive_name = Some (Some b) ->
  cached_client (self s) (binding_location b) = Some (c, m') ->
  let st := binding_store b in
  let p := normalize_contents_path path in
  PyStr.is_empty p = false ->
  obs_list st p (remote s) = (inr batches, w1) ->
  concat batches = [] ->
  obs_get st p w1 = (inr chunks, w2) ->
  concat chunks = [] ->
  obs_head st p w2 = (inr metadata, w3) ->
  (if mem (splitext_ext p) base64_extensions
   then inr (b64encode (concat chunks))
   else utf8_decode (concat chunks)) = inr text ->
  s3_list_objects_v2 c drive_name (p +:+ "/") w3 = (inr isDir, w4) ->
  get_contents drive_name path s
  = (inr (if PyStr.lacks "."%char (basename p)
             || negb (mem (splitext_ext (basename p)) ext_list)
          then Listing []
          else File {| e_path := p; e_content := Some (PStr text);
                       e_last_modified := isoformat (meta_last_modified metadata);
                       e_size := meta_size metadata |}),
     {| self := m'; remote := w4;
        calls := calls s ++ [CallList st p; CallGet st p; CallHead st p;
                             CallS3ListObjectsV2 c drive_name (p +:+ "/")] |}).
Proof.
  intros Hb Hc st p Hp Hlist Hnil Hget Hempty Hhead Htext Hcheck.
  rewrite (get_contents_reads s drive_name b path batches chunks metadata text
             w1 w2 w3 Hb Hp Hlist Hnil Hget Hhead Htext).
  unfold try_except. rewrite Hempty. cbn [is_nil].
  unfold bind.
  erewrite check_object_done; [|exact Hb|exact Hc|exact Hcheck].
  unfold ret. cbn [calls]. rewrite <- app_assoc. reflexivity.
Qed.

(** X8. A path with nothing listed under it and no object at it is not
    answered with NOT_FOUND: the failed get is wrapped in BAD_REQUEST, and
    no head is asked for. *)
Theorem get_contents_missing_path s drive_name b path batches e w1 w2 :
  _content_managers (self s) !! drive_name = Some (Some b) ->
  let st := binding_store b in
  let p := normalize_contents_path path in
  PyStr.is_empty p = false ->
  obs_list st p (remote s) = (inr batches, w1) ->
  concat batches = [] ->
  obs_get st p w1 = (inl e, w2) ->
  get_contents drive_name path s
  = (inl (HTTPError codes.BAD_REQUEST
            ("The following error occured when retrieving the contents: "
               +:+ str_exn e)),
     {| self := self s; remote := w2;
        calls := calls s ++ [CallList st p; CallGet st p] |}).
Proof.
  intros Hb st p Hp Hlist Hnil Hget.
  unfold get_contents, try_except. fold p.
  bound_by Hb. unfold bind at 1. unfold list_, remote_call at 1. fold st.
  rewrite Hlist, list_loop, Hnil.
  change (is_nil (@nil (ObjectMeta datetime))) with true.
  change (negb true) with false. change (false || false) with false.
  change (negb false) with true. rewrite Hp.
  change (true && negb false) with true. cbv iota.
  unfold bind at 1. bound_by Hb. cbv beta.
  unfold bind at 1. unfold get_async, remote_call at 1.
  cbn [remote self calls]. fold st. rewrite Hget.
  unfold raise. rewrite <- app_assoc. reflexivity.
Qed.

(** X9. The root of a drive that lists nothing: with the S3 clients at hand
    the answer is the empty listing, after the list call and one S3 listing
    under [/]; on a manager that has no S3 clients (its provider is not
    [s3]) the same request fails with BAD_REQUEST, because the check that
    follows an empty listing reads them. *)
Theorem get_contents_empty_root s drive_name b path batches w1 :
  _content_managers (self s) !! drive_name = Some (Some b) ->
  let st := binding_store b in
  normalize_contents_path path = EmptyString ->
  obs_list st EmptyString (remote s) = (inr batches, w1) ->
  concat batches = [] ->
  (forall c m' isDir w2,
      cached_client (self s) (binding_location b) = Some (c, m') ->
      s3_list_objects_v2 c drive_name "/" w1 = (inr isDir, w2) ->
      get_contents drive_name path s
      = (inr (Listing []),
         {| self := m'; remote := w2;
            calls := calls s ++ [CallList st EmptyString;
                                 CallS3ListObjectsV2 c drive_name "/"] |}))
  /\ (_s3_clients (self s) = None ->
      get_contents drive_name path s
      = (inl (HTTPError codes.BAD_REQUEST
                ("The following error occured when retrieving the contents: "
                   +:+ str_exn
                         (HTTPError codes.BAD_REQUEST
                            ("The following error occured when retriving the drive location: "
                               +:+ str_exn (AttributeError "_s3_clients"))))),
         {| self := self s; remote := w1;
            calls := calls s ++ [CallList st EmptyString] |})).
Proof.
  intros Hb st Hp Hlist Hnil.
  assert (Hrun : get_contents drive_name path s
                 = try_except
                     (bind (_check_object drive_name EmptyString)
                        (fun _ => ret (Listing [])))
                     (fun e =>
                        raise (HTTPError codes.BAD_REQUEST
                                 ("The following error occured when retrieving the contents: "
                                    +:+ str_exn e)))
                     {| self := self s; remote := w1;
                        calls := calls s ++ [CallList st EmptyString] |}).
  { unfold get_contents, try_except. rewrite Hp.
    bound_by Hb. unfold bind at 1. unfold list_, remote_call at 1. fold st.
    rewrite Hlist, list_loop, Hnil.
    change (is_nil (@nil (ObjectMeta datetime))) with true.
    change (negb true) with false. change (false || false) with false.
    change (negb false) with true.
    change (PyStr.is_empty EmptyString) with true.
    change (true && negb true) with false. cbv iota.
    unfold bind at 1. unfold ret at 1.
    change (true && false) with false. cbv iota.
    destruct (PyStr.lacks "."%char (basename EmptyString)
              || negb (mem (splitext_ext (basename EmptyString)) ext_list));
      reflexivity. }
  split.
  - intros c m' isDir w2 Hc Hcheck. rewrite Hrun. unfold try_except, bind.
    erewrite check_object_done; [|exact Hb|exact Hc|exact Hcheck].
    unfold ret. cbn [calls]. now rewrite <- app_assoc.
  - intros Hnone. rewrite Hrun. unfold try_except, bind.
    erewrite check_object_without_clients; [reflexivity|exact Hb|exact Hnone].
Qed.

(** X10. [check_file] asks for one head of the normalised path and answers
    by success alone; whatever the head raises, a missing key or not, the
    caller gets the same NOT_FOUND, without the cause. *)
Theorem check_file_any_failure_is_not_found s drive_name b path answer w :
  _content_managers (self s) !! drive_name = Some (Some b) ->
  obs_head (binding_store b) (normalize_path path) (remote s) = (answer, w) ->
  check_file drive_name path s
  = (match answer with
     | inr _ => inr tt
     | inl _ =>
         inl (HTTPError codes.NOT_FOUND
                "Object does not already exist within drive.")
     end,
     {| self := self s; remote := w;
        calls := calls s ++ [CallHead (binding_store b) (normalize_path path)] |}).
Proof.
  intros Hb Hhead. unfold check_file, try_except.
  bound_by Hb. unfold bind, head_async, remote_call, ret, raise.
  rewrite Hhead. now destruct answer.
Qed.

(** X11. Unless the request is for a directory under the provider [s3],
    [new_file] writes the empty byte string at the normalised path in
    overwrite mode, then asks for its head: a directory asked of any other
    provider is created as an empty object at the path itself. *)
Theorem new_file_puts_empty_object s drive_name b path is_dir answer w1 w2 :
  _content_managers (self s) !! drive_name = Some (Some b) ->
  negb is_dir || negb (provider_is (_config (self s)) "s3") = true ->
  let st := binding_store b in
  let p := normalize_path path in
  obs_put st p (PVal (PBytes [])) overwrite (remote s) = (inr tt, w1) ->
  obs_head st p w1 = (answer, w2) ->
  new_file drive_name path is_dir s
  = (match answer with
     | inr metadata =>
         inr {| e_path := p; e_content := Some (PStr EmptyString);
                e_last_modified := isoformat (meta_last_modified metadata);
                e_size := meta_size metadata |}
     | inl e =>
         inl (HTTPError codes.BAD_REQUEST
                ("The following error occured when creating the object: "
                   +:+ str_exn e))
     end,
     {| self := self s; remote := w2;
        calls := calls s ++ [CallPut st p (PVal (PBytes [])) overwrite;
                             CallHead st p] |}).
Proof.
  intros Hb Hplain st p Hput Hhead.
  unfold new_file, try_except. unfold bind at 1, get_self at 1.
  rewrite Hplain. fold p.
  unfold bind at 1. bound_by Hb.
  unfold put_async, remote_call at 1. fold st. rewrite Hput.
  bound_by Hb. unfold bind, head_async, remote_call, ret, raise.
  cbn [remote self calls]. fold st. rewrite Hhead.
  rewrite <- app_assoc. now destruct answer.
Qed.

(** X12. Content that the negotiated format cannot transcode (text that is
    not a string, base64 that does not decode, a value JSON cannot
    serialise) is never written: [save_file] fails with BAD_REQUEST around
    the codec's error before it looks the drive up, mounted or not, and the
    state is as it was. *)
Theorem save_file_refuses_bad_content s drive_name path content options_format
    content_format content_type e :
  negotiated_content content options_format content_format content_type
  = inl e ->
  save_file drive_name path content options_format content_format content_type s
  = (inl (HTTPError codes.BAD_REQUEST
            ("The following error occured when saving the file: "
               +:+ str_exn e)), s).
Proof.
  intros Hbad. rewrite <- formatted_content_negotiated in Hbad.
  unfold save_file, try_except, bind, lift. now rewrite Hbad.
Qed.

(** X13. When the store refuses the put, [save_file] stops there: no head
    is asked for, and the caller gets BAD_REQUEST around the store's
    error. *)
Theorem save_file_put_failure s drive_name b path content options_format
    content_format content_type payload e w :
  _content_managers (self s) !! drive_name = Some (Some b) ->
  negotiated_content content options_format content_format content_type
  = inr payload ->
  let st := binding_store b in
  let p := normalize_path path in
  obs_put st p payload overwrite (remote s) = (inl e, w) ->
  save_file drive_name path content options_format content_format content_type s
  = (inl (HTTPError codes.BAD_REQUEST
            ("The following error occured when saving the file: "
               +:+ str_exn e)),
     {| self := self s; remote := w;
        calls := calls s ++ [CallPut st p payload overwrite] |}).
Proof.
  intros Hb Hn st p Hput. rewrite <- formatted_content_negotiated in Hn.
  unfold save_file, try_except. unfold bind at 1, lift. rewrite Hn.
  bound_by Hb. unfold bind at 1. unfold put_async, remote_call at 1.
  fold st p. now rewrite Hput.
Qed.

End Contents.

Section Provider.
Context `{C : Collaborators}.

Implicit Types (s : state) (e : exn).

Lemma dict_get_set_eq {V} k (v : V) d : dict_get k (dict_set k v d) = Some v.
Proof.
  induction d as [|[k' v'] d IH]; simpl.
  - unfold PyStr.eqb. now rewrite bool_decide_eq_true_2.
  - destruct (PyStr.eqb k' k) eqn:E; simpl.
    + unfold PyStr.eqb. now rewrite bool_decide_eq_true_2.
    + now rewrite E.
Qed.

Lemma dict_get_set_ne {V} k k0 (v : V) d :
  k0 <> k -> dict_get k0 (dict_set k v d) = dict_get k0 d.
Proof.
  intros Hne. induction d as [|[k' v'] d IH]; simpl.
  - unfold PyStr.eqb. rewrite bool_decide_eq_false_2; [reflexivity|congruence].
  - destruct (PyStr.eqb k' k) eqn:E; simpl.
    + unfold PyStr.eqb in *. apply bool_decide_eq_true_1 in E. subst k'.
      rewrite bool_decide_eq_false_2 by congruence. reflexivity.
    + now rewrite IH.
Qed.

(** X18. A paginated GET always asks for pages of 100: the query handed to
    [url_concat] holds [per_page] = 100 whatever value the caller gave for
    it, and every other parameter of the caller as given; a url that
    neither starts with the base url nor with [http:] or [https:] is joined
    to the base first. *)
Theorem call_provider_page_size_is_forced cfg url method params headers base :
  api_base_url cfg = Some base ->
  PyStr.eqb (str_lower method) "get" = true ->
  let resolved :=
    if negb (PyStr.startswith base url) && negb (has_http_scheme url)
    then url_path_join base url else url in
  let query := dict_set "per_page" (PInt 100) (default [] params) in
  prepare_request cfg url true method None params headers true
  = and_then (url_concat resolved query) (fun final =>
      inr ({| req_url := final; req_method := str_upper method;
              req_body := None; req_headers := headers |},
           final, true, None, headers))
  /\ dict_get "per_page" query = Some (PInt 100)
  /\ (forall k, k <> "per_page" ->
         dict_get k query = dict_get k (default [] params)).
Proof.
  intros Hbase Hget resolved query. split; [|split].
  - unfold prepare_request, and_then, per_page_argument.
    rewrite Hbase, Hget. subst resolved query. simpl.
    destruct (negb (PyStr.startswith base url) && negb (has_http_scheme url));
      reflexivity.
  - apply dict_get_set_eq.
  - intros k Hk. now apply dict_get_set_ne.
Qed.

(** X19. [_call_provider] never writes to the manager: whatever it returns,
    the registry, the configuration and the S3 clients are as before, and
    the call log grew by fetches only, at most one per unit of fuel. *)
Theorem call_provider_only_fetches fuel :
  forall url load_json method body params headers has_pagination s out s',
    _call_provider fuel url load_json method body params headers
      has_pagination s = Some (out, s') ->
    self s' = self s
    /\ exists requests,
        calls s' = calls s ++ map CallFetch requests
        /\ (length requests <= fuel)%nat.
Proof.
  induction fuel as [|fuel IH];
    intros url load_json method body params headers has_pagination s out s' Hrun;
    [discriminate|].
  cbn [_call_provider] in Hrun.
  destruct (missing_credential (_config (self s))).
  { inversion Hrun; subst. split; [reflexivity|].
    exists []. simpl. rewrite app_nil_r. split; [reflexivity|lia]. }
  destruct (prepare_request (_config (self s)) url load_json method body params
              headers has_pagination)
    as [e|[[[[request url'] with_pagination] body'] headers']].
  { inversion Hrun; subst. split; [reflexivity|].
    exists []. simpl. rewrite app_nil_r. split; [reflexivity|lia]. }
  destruct (getattr_fetch (_client (self s))) as [e|fetch].
  { inversion Hrun; subst. split; [reflexivity|].
    exists []. simpl. rewrite app_nil_r. split; [reflexivity|lia]. }
  unfold remote_call in Hrun.
  destruct (fetch request (remote s)) as [response w].
  assert (Hone : forall (r : exn + pyval) s1,
             s1 = {| self := self s; remote := w;
                     calls := calls s ++ [CallFetch request] |} ->
             self s1 = self s
             /\ exists requests,
                 calls s1 = calls s ++ map CallFetch requests
                 /\ (length requests <= S fuel)%nat).
  { intros _ s1 ->. split; [reflexivity|].
    exists [request]. split; [reflexivity|simpl; lia]. }
  destruct response as [e|response];
    [inversion Hrun; subst; eapply (Hone (inl e)); reflexivity|].
  destruct (utf8_decode (resp_body response)) as [e|result];
    [inversion Hrun; subst; eapply (Hone (inl e)); reflexivity|].
  destruct load_json;
    [|inversion Hrun; subst; eapply (Hone (inl (KeyError result))); reflexivity].
  destruct (next_link (resp_link response)) as [e|next_url];
    [inversion Hrun; subst; eapply (Hone (inl e)); reflexivity|].
  destruct (json_loads result) as [e|new_];
    [inversion Hrun; subst; eapply (Hone (inl e)); reflexivity|].
  destruct next_url as [next_url|].
  - destruct (_call_provider fuel next_url true method body' None headers' false
                {| self := self s; remote := w;
                   calls := calls s ++ [CallFetch request] |})
      as [[r s2]|] eqn:Hrec; [|discriminate].
    destruct (IH _ _ _ _ _ _ _ _ _ _ Hrec) as (Hself & requests & Hcalls & Hlen).
    simpl in Hself, Hcalls.
    assert (Hs' : s' = s2) by (destruct r; inversion Hrun; reflexivity).
    subst s'. split; [exact Hself|].
    exists (request :: requests). split.
    + rewrite Hcalls, <- app_assoc. reflexivity.
    + simpl. lia.
  - destruct (with_pagination && negb (is_list new_));
      inversion Hrun; subst; eapply (Hone (inl (KeyError result))); reflexivity.
Qed.

End Provider.

(** ** Stripping, once more *)

Lemma lstrip_splits P s :
  exists pre, s = pre +:+ PyStr.lstrip P s /\ all_chars P pre = true.
Proof.
  induction s as [|c s IH]; simpl.
  - exists EmptyString. split; reflexivity.
  - destruct (P c) eqn:Pc.
    + destruct IH as (pre & Hs & Hpre). exists (String c pre). split.
      * change (String c pre +:+ PyStr.lstrip P s)
          with (String c (pre +:+ PyStr.lstrip P s)).
        f_equal. exact Hs.
      * simpl. now rewrite Pc, Hpre.
    + exists EmptyString. split; reflexivity.
Qed.

Lemma rstrip_splits P s :
  exists post, s = PyStr.rstrip P s +:+ post /\ all_chars P post = true.
Proof.
  induction s as [|c s IH]; simpl.
  - exists EmptyString. split; reflexivity.
  - destruct IH as (post & Hs & Hpost).
    destruct (PyStr.rstrip P s) as [|d r] eqn:E.
    + change (s = post) in Hs. subst s. destruct (P c) eqn:Pc.
      * exists (String c post). split; [reflexivity|].
        simpl. now rewrite Pc, Hpost.
      * exists post. split; [reflexivity|exact Hpost].
    + exists post. split; [|exact Hpost].
      change (String c (String d r) +:+ post)
        with (String c (String d r +:+ post)).
      f_equal. exact Hs.
Qed.

Lemma rstrip_fixed c s :
  PyStr.endswith_char c s = false -> PyStr.rstrip (PyStr.is_char c) s = s.
Proof.
  induction s as [|a s IH]; [reflexivity|].
  intros H. simpl.
  destruct s as [|d s].
  - simpl. simpl in H. unfold PyStr.is_char. now rewrite H.
  - rewrite IH by exact H. reflexivity.
Qed.

(** X20. Normalisation takes slashes away and nothing else: every path is
    a run of slashes, its normal form, and a run of slashes; and the paths
    it leaves unchanged are exactly those that neither start nor end with a
    slash, so slashes inside a path stay. *)
Theorem normalize_path_only_trims path :
  (exists pre post,
      path = pre +:+ normalize_path path +:+ post
      /\ all_chars (PyStr.is_char "/"%char) pre = true
      /\ all_chars (PyStr.is_char "/"%char) post = true)
  /\ (normalize_path path = path
      <-> PyStr.startswith "/" path = false
          /\ PyStr.endswith_char "/"%char path = false).
Proof.
  unfold normalize_path, PyStr.strip_slash, PyStr.strip. split.
  - destruct (lstrip_splits (PyStr.is_char "/"%char) path) as (pre & Hpre & Hp).
    destruct (rstrip_splits (PyStr.is_char "/"%char)
                (PyStr.lstrip (PyStr.is_char "/"%char) path))
      as (post & Hpost & Hq).
    exists pre, post. split; [|split; assumption].
    rewrite <- Hpost. exact Hpre.
  - split.
    + intros Hfix. rewrite <- Hfix. split.
      * apply clean_head_startswith, rstrip_clean_head, lstrip_clean_head.
      * apply rstrip_no_trailing.
    + intros [Hstart Hend].
      assert (Hl : PyStr.lstrip (PyStr.is_char "/"%char) path = path).
      { apply lstrip_fixed. destruct path as [|a path]; [exact I|].
        simpl in *. rewrite andb_true_r in Hstart.
        unfold PyStr.is_char. apply bool_decide_eq_false.
        apply bool_decide_eq_false in Hstart. congruence. }
      rewrite Hl. now apply rstrip_fixed.
Qed.

(** ** The slices of save_file *)

Lemma range_step_lookup stop step i :
  (0 < step)%nat ->
  range_step stop step !! i
  = if decide (i * step < stop)%nat then Some (i * step)%nat else None.
Proof.
  intros Hstep. unfold range_step.
  rewrite list_lookup_fmap.
  set (n := ((stop + step - 1) / step)%nat).
  assert (Hn : (i < n <-> i * step < stop)%nat).
  { subst n. split; intros H.
    - pose proof (Nat.div_mod_eq (stop + step - 1) step) as Hd.
      pose proof (Nat.mod_upper_bound (stop + step - 1) step ltac:(lia)) as Hm.
      nia.
    - pose proof (Nat.div_mod_eq (stop + step - 1) step) as Hd.
      pose proof (Nat.mod_upper_bound (stop + step - 1) step ltac:(lia)) as Hm.
      nia. }
  destruct (decide (i * step < stop)%nat) as [Hlt|Hge].
  - rewrite lookup_seq_lt by (apply Hn; exact Hlt). reflexivity.
  - rewrite lookup_seq_ge; [reflexivity|]. lia.
Qed.

(** X21. The slicing loop of [save_file] cuts the decoded bytes at every
    multiple of 512: slice [i] exists exactly when [512 i] is below the
    length and holds the 512 bytes from there on (fewer at the end); so no
    slice is empty or longer than 512, no bytes at all give no slice, and
    the slices joined are the bytes again. *)
Theorem byte_arrays_slices (b : bytes) :
  (forall i,
      byte_arrays b !! i
      = if decide (i * 512 < length b)%nat
        then Some (take 512 (drop (i * 512) b)) else None)
  /\ Forall (fun c => (0 < length c <= 512)%nat) (byte_arrays b)
  /\ concat (byte_arrays b) = b.
Proof.
  assert (Hlookup : forall i,
             byte_arrays b !! i
             = if decide (i * 512 < length b)%nat
               then Some (take 512 (drop (i * 512) b)) else None).
  { intros i. unfold byte_arrays. rewrite list_lookup_fmap.
    rewrite range_step_lookup by lia.
    destruct (decide (i * 512 < length b)%nat); [|reflexivity].
    simpl. unfold slice. do 2 f_equal. lia. }
  split; [exact Hlookup|]. split; [|apply byte_arrays_join].
  apply Forall_lookup. intros i c Hc. rewrite Hlookup in Hc.
  destruct (decide (i * 512 < length b)%nat) as [Hlt|]; [|discriminate].
  inversion Hc; subst c. rewrite length_take, length_drop. lia.
Qed.

Section DiscoveryProperties.
Context `{D : Discovery}.

Lemma get_drive_location_answer (m : manager) clients drive_name c answer w w1 log :
  _s3_clients m = Some clients ->
  session_default_client = inr c ->
  s3_get_bucket_location c drive_name w = (answer, w1) ->
  _get_drive_location m drive_name (w, log)
  = (match answer with
     | inr location => inr location
     | inl e =>
         inl (HTTPError codes.BAD_REQUEST
                ("The following error occured when retriving the drive location: "
                   +:+ str_exn e))
     end, (w1, log ++ [CallGetBucketLocation c drive_name])).
Proof.
  intros Hcl Hc Hloc. unfold _get_drive_location, dtry, dbind, dcall, draise.
  rewrite Hcl, Hc. simpl. rewrite Hloc. now destruct answer.
Qed.

(** X22. The constructor refuses an [s3] configuration that lacks a key,
    and only that: any other configuration gives a manager with no drive
    mounted, whose S3 clients exist exactly for the provider [s3].  A
    manager it built for [s3] therefore never gets the missing-credentials
    answer from [list_drives], which goes straight to the listing of the
    containers. *)
Theorem init_guards_credentials (cfg : DrivesConfig) :
  match __init__ cfg with
  | inl e =>
      provider cfg = Some "s3"
      /\ truthy (access_key_id cfg) && truthy (secret_access_key cfg) = false
      /\ e = HTTPError codes.BAD_REQUEST
               "No credentials specified. Please set them in your user jupyter_server_config file."
  | inr m =>
      _config m = cfg
      /\ (forall drive_name, _content_managers m !! drive_name = None)
      /\ (is_Some (_s3_clients m) <-> provider cfg = Some "s3")
      /\ (provider cfg = Some "s3" ->
          forall st,
            list_drives m st
            = dbind (dcall (CallListContainers Provider_S3)
                       (list_containers Provider_S3 (access_key_id cfg)
                          (secret_access_key cfg)))
                (drive_entries m) st)
  end.
Proof.
  unfold __init__, provider_is.
  case_bool_decide as Hs3.
  - destruct (truthy (access_key_id cfg) && truthy (secret_access_key cfg)) eqn:Hk.
    + split; [reflexivity|]. split; [intros; apply lookup_empty|].
      split; [split; eauto|].
      intros _ st. unfold list_drives, provider_is. simpl.
      rewrite Hk. rewrite bool_decide_eq_true_2 by exact Hs3. reflexivity.
    + repeat split; assumption.
  - split; [reflexivity|]. split; [intros; apply lookup_empty|].
    split; [|intros; contradiction].
    simpl. split; [intros [x Hx]; discriminate | intros; contradiction].
Qed.

(** X23. [list_drives] refuses before any call: without both keys with
    BAD_REQUEST, and with both keys but a provider other than [s3] and
    [gcs] with NOT_IMPLEMENTED. *)
Theorem list_drives_refusals (m : manager) st :
  let cfg := _config m in
  (truthy (access_key_id cfg) && truthy (secret_access_key cfg) = false ->
   list_drives m st
   = (inl (HTTPError codes.BAD_REQUEST
             "No credentials specified. Please set them in your user jupyter_server_config file."),
      st))
  /\ (truthy (access_key_id cfg) && truthy (secret_access_key cfg) = true ->
      provider cfg <> Some "s3" -> provider cfg <> Some "gcs" ->
      list_drives m st
      = (inl (HTTPError codes.NOT_IMPLEMENTED
                "Listing drives not supported for given provider."), st)).
Proof.
  intros cfg. subst cfg. unfold list_drives. split.
  - intros ->. reflexivity.
  - intros -> H1 H2. unfold provider_is.
    rewrite !bool_decide_eq_false_2 by assumption. reflexivity.
Qed.

Lemma drive_entries_s3 (m : manager) clients c w location date results :
  provider (_config m) = Some "s3" ->
  _s3_clients m = Some clients ->
  session_default_client = inr c ->
  Forall (fun r =>
            s3_get_bucket_location c (container_name r) w
            = (inr (location (container_name r)), w)
            /\ dict_get "creation_date" (container_extra r) = Some (date r))
         results ->
  forall log,
    drive_entries m results (w, log)
    = (inr (map (fun r =>
                   {| drive_name_ := container_name r;
                      drive_region := location (container_name r);
                      drive_creation_date := date r;
                      drive_mounted :=
                        bool_decide (is_Some (_content_managers m
                                                !! container_name r));
                      drive_provider := Some "s3" |}) results),
       (w, log ++ map (fun r => CallGetBucketLocation c (container_name r))
                      results)).
Proof.
  intros Hs3 Hcl Hc Hall. induction Hall as [|r results [Hloc Hdate] _ IH];
    intros log.
  - simpl. now rewrite app_nil_r.
  - cbn [drive_entries]. unfold provider_is. rewrite Hs3.
    rewrite bool_decide_eq_true_2 by reflexivity.
    unfold dbind at 1.
    rewrite (get_drive_location_answer m clients _ c _ w w log Hcl Hc Hloc).
    rewrite Hdate. unfold dbind at 1, dret at 1. unfold dbind at 1.
    rewrite IH. unfold dret. simpl. now rewrite <- app_assoc.
Qed.

(** X24. For the provider [s3], [list_drives] answers one entry per
    container, in the order of the listing: its name, the region looked up
    for it (one bucket-location call each, after the one listing call), its
    creation date, and [mounted] set exactly when the registry holds the
    name. *)
Theorem list_drives_s3 (m : manager) clients c w w1 log location date results :
  let cfg := _config m in
  truthy (access_key_id cfg) && truthy (secret_access_key cfg) = true ->
  provider cfg = Some "s3" ->
  _s3_clients m = Some clients ->
  session_default_client = inr c ->
  list_containers Provider_S3 (access_key_id cfg) (secret_access_key cfg) w
  = (inr results, w1) ->
  Forall (fun r =>
            s3_get_bucket_location c (container_name r) w1
            = (inr (location (container_name r)), w1)
            /\ dict_get "creation_date" (container_extra r) = Some (date r))
         results ->
  list_drives m (w, log)
  = (inr (map (fun r =>
                 {| drive_name_ := container_name r;
                    drive_region := location (container_name r);
                    drive_creation_date := date r;
                    drive_mounted :=
                      bool_decide (is_Some (_content_managers m
                                              !! container_name r));
                    drive_provider := Some "s3" |}) results),
     (w1, log ++ CallListContainers Provider_S3
              :: map (fun r => CallGetBucketLocation c (container_name r))
                     results)).
Proof.
  intros cfg Hk Hs3 Hcl Hc Hlist Hall. subst cfg.
  unfold list_drives. rewrite Hk. unfold provider_is. rewrite Hs3.
  rewrite bool_decide_eq_true_2 by reflexivity.
  unfold dbind at 1, dret at 1. unfold dbind at 1, dcall at 1.
  simpl fst. simpl snd. rewrite Hlist.
  rewrite (drive_entries_s3 m clients c w1 location date results Hs3 Hcl Hc Hall).
  now rewrite <- app_assoc.
Qed.

(** X25. For the provider [gcs], [list_drives] answers the empty list when
    there is no container, and otherwise does not get past the first one:
    [location] is assigned for [s3] only, so reading it raises
    [UnboundLocalError], which leaves the method as it is (no handler
    turns it into an [HTTPError]). *)
Theorem list_drives_gcs (m : manager) w w1 log results :
  let cfg := _config m in
  truthy (access_key_id cfg) && truthy (secret_access_key cfg) = true ->
  provider cfg = Some "gcs" ->
  list_containers Provider_GOOGLE_STORAGE (access_key_id cfg)
    (secret_access_key cfg) w = (inr results, w1) ->
  list_drives m (w, log)
  = (match results with
     | [] => inr []
     | _ :: _ => inl (UnboundLocalError "location")
     end, (w1, log ++ [CallListContainers Provider_GOOGLE_STORAGE])).
Proof.
  intros cfg Hk Hgcs Hlist. subst cfg.
  unfold list_drives. rewrite Hk. unfold provider_is. rewrite Hgcs.
  rewrite bool_decide_eq_false_2 by discriminate.
  rewrite bool_decide_eq_true_2 by reflexivity.
  unfold dbind at 1, dret at 1. unfold dbind at 1, dcall at 1.
  simpl fst. simpl snd. rewrite Hlist.
  destruct results as [|r results]; [reflexivity|].
  cbn [drive_entries]. unfold provider_is. rewrite Hgcs.
  rewrite bool_decide_eq_false_2 by discriminate. reflexivity.
Qed.

(** X26. A bucket whose location lookup fails makes the whole of
    [list_drives] fail: the drives listed before it are lost with it, and
    the caller gets BAD_REQUEST around the lookup's error. *)
Theorem list_drives_location_failure (m : manager) clients c w w1 w2 log
    location date before r e rest :
  let cfg := _config m in
  truthy (access_key_id cfg) && truthy (secret_access_key cfg) = true ->
  provider cfg = Some "s3" ->
  _s3_clients m = Some clients ->
  session_default_client = inr c ->
  list_containers Provider_S3 (access_key_id cfg) (secret_access_key cfg) w
  = (inr (before ++ r :: rest), w1) ->
  Forall (fun r =>
            s3_get_bucket_location c (container_name r) w1
            = (inr (location (container_name r)), w1)
            /\ dict_get "creation_date" (container_extra r) = Some (date r))
         before ->
  s3_get_bucket_location c (container_name r) w1 = (inl e, w2) ->
  list_drives m (w, log)
  = (inl (HTTPError codes.BAD_REQUEST
            ("The following error occured when retriving the drive location: "
               +:+ str_exn e)),
     (w2, log ++ CallListContainers Provider_S3
              :: map (fun r => CallGetBucketLocation c (container_name r))
                     (before ++ [r]))).
Proof.
  intros cfg Hk Hs3 Hcl Hc Hlist Hall Hfail. subst cfg.
  unfold list_drives. rewrite Hk. unfold provider_is. rewrite Hs3.
  rewrite bool_decide_eq_true_2 by reflexivity.
  unfold dbind at 1, dret at 1. unfold dbind at 1, dcall at 1.
  simpl fst. simpl snd. rewrite Hlist.
  replace (log ++ CallListContainers Provider_S3
               :: map (fun r => CallGetBucketLocation c (container_name r))
                      (before ++ [r]))
    with ((log ++ [CallListContainers Provider_S3])
            ++ map (fun r => CallGetBucketLocation c (container_name r))
                   (before ++ [r]))
    by now rewrite <- app_assoc.
  generalize (log ++ [CallListContainers Provider_S3]). clear Hlist.
  induction Hall as [|r0 before [Hloc Hdate] _ IH]; intros log1.
  - cbn [app drive_entries map]. unfold provider_is. rewrite Hs3.
    rewrite bool_decide_eq_true_2 by reflexivity.
    unfold dbind at 1.
    now rewrite (get_drive_location_answer m clients _ c _ w1 w2 log1 Hcl Hc Hfail).
  - cbn [app drive_entries map]. unfold provider_is. rewrite Hs3.
    rewrite bool_decide_eq_true_2 by reflexivity.
    unfold dbind at 1.
    rewrite (get_drive_location_answer m clients _ c _ w1 w1 log1 Hcl Hc Hloc).
    rewrite Hdate. unfold dbind at 1, dret at 1. unfold dbind at 1.
    rewrite IH. now rewrite <- app_assoc.
Qed.

End DiscoveryProperties.

(** ** The S3 manager *)

(** X27. [S3Manager.mount_drive] has no conflict: while the contents
    manager can be built, a name that is already mounted is mounted again,
    the new contents manager takes the place of the old one, and no other
    name changes. *)
Theorem s3_manager_mount_replaces {CM : Type}
    (new_cm : option string -> option string -> option string -> string -> exn + CM)
    (self : S3Manager.t CM) drive_name old new :
  S3Manager.s3_content_managers CM self !! drive_name = Some old ->
  new_cm (access_key_id (S3Manager.config CM self))
    (secret_access_key (S3Manager.config CM self))
    (api_base_url (S3Manager.config CM self)) drive_name = inr new ->
  exists self',
    S3Manager.mount_drive CM new_cm self drive_name = inr (new, self')
    /\ S3Manager.s3_content_managers CM self' !! drive_name = Some new
    /\ (forall other, other <> drive_name ->
           S3Manager.s3_content_managers CM self' !! other
           = S3Manager.s3_content_managers CM self !! other)
    /\ dom (S3Manager.s3_content_managers CM self')
       = dom (S3Manager.s3_content_managers CM self).
Proof.
  intros Hold Hnew. unfold S3Manager.mount_drive. rewrite Hnew.
  eexists. split; [reflexivity|]. simpl.
  split; [apply lookup_insert_eq|].
  split; [intros other Ho; now apply lookup_insert_ne|].
  rewrite dom_insert_L.
  assert (Hin : drive_name ∈ dom (S3Manager.s3_content_managers CM self))
    by (apply elem_of_dom; eauto).
  apply set_eq. intros x. rewrite elem_of_union, elem_of_singleton.
  split; [intros [->|Hx]; assumption | intros Hx; now right].
Qed.

(** X28. [S3Manager.unmount_drive] answers a name that is not mounted with
    BAD_REQUEST (the base manager answers NOT_FOUND), and undoes the mount
    of a free name: mount then unmount gives the manager back. *)
Theorem s3_manager_unmount {CM : Type}
    (new_cm : option string -> option string -> option string -> string -> exn + CM)
    (self : S3Manager.t CM) drive_name :
  S3Manager.s3_content_managers CM self !! drive_name = None ->
  S3Manager.unmount_drive CM self drive_name
  = inl (HTTPError codes.BAD_REQUEST "Drive is not mounted or doesn't exist.")
  /\ (forall cm self',
         S3Manager.mount_drive CM new_cm self drive_name = inr (cm, self') ->
         S3Manager.unmount_drive CM self' drive_name = inr self).
Proof.
  intros Hfree. split.
  - unfold S3Manager.unmount_drive.
    rewrite bool_decide_eq_false_2; [reflexivity|].
    intros [x Hx]. congruence.
  - intros cm self' Hmount. unfold S3Manager.mount_drive in Hmount.
    destruct (new_cm _ _ _ drive_name) as [e|cm0]; [discriminate|].
    inversion Hmount; subst. unfold S3Manager.unmount_drive. simpl.
    rewrite lookup_insert_eq. rewrite bool_decide_eq_true_2 by eauto.
    rewrite delete_insert_id by exact Hfree.
    destruct self. reflexivity.
Qed.

(** * The further properties, run *)

Lemma mount_drive_unknown_provider_witness :
  mount_drive "bucket-a" "azure" "westeurope" Example.fresh
  = (inl (HTTPError codes.BAD_REQUEST
            "The following error occured when mouting the drive: cannot access local variable 'store' where it is not associated with a value"),
     Example.fresh).
Proof.
  refine (mount_drive_unknown_provider Example.fresh "bucket-a" "azure"
            "westeurope" eq_refl _ _ _); discriminate.
Defined.

Lemma mount_then_unmount_restores_witness :
  unmount_drive "bucket-a" Example.mounted = (inr tt, Example.fresh).
Proof.
  exact (mount_then_unmount_restores Example.fresh Example.mounted "bucket-a"
           "s3" "eu-north-1" eq_refl eq_refl).
Defined.

Lemma remount_after_unmount_witness :
  (mount_drive "bucket-a" "s3" "eu-central-1" Scenario.unmounted_again).1
  = inr tt.
Proof.
  rewrite (remount_after_unmount Example.mounted Scenario.unmounted_again
             "bucket-a" "s3" "eu-central-1" eq_refl).
  reflexivity.
Defined.

Lemma get_contents_file_witness :
  get_contents "bucket-a" "/docs/readme.md" Example.mounted
  = (inr (File {| e_path := "docs/readme.md"; e_content := Some (PStr "hello");
                  e_last_modified := "2024-04-30T08:15:00+00:00";
                  e_size := 5 |}),
     {| self := self Example.mounted; remote := remote Example.mounted;
        calls := [CallList "bucket-a" "docs/readme.md";
                  CallGet "bucket-a" "docs/readme.md";
                  CallHead "bucket-a" "docs/readme.md"] |}).
Proof.
  refine (get_contents_file Example.mounted "bucket-a" Example.bucket_a
            "/docs/readme.md" [] [String.list_byte_of_string "hello"] _ "hello"
            _ _ _ eq_refl eq_refl eq_refl eq_refl eq_refl _ eq_refl eq_refl).
  vm_compute. discriminate.
Defined.

Lemma get_contents_empty_object_witness :
  (get_contents "bucket-a" "notes" Scenario.with_empty_note).1
  = inr (Listing []).
Proof.
  rewrite (get_contents_empty_object Scenario.with_empty_note "bucket-a"
             Example.bucket_a "notes" [] [[]] _ EmptyString "eu-north-1"
             (Scenario.with_client Scenario.with_empty_note) false
             _ _ _ _ eq_refl eq_refl eq_refl eq_refl eq_refl eq_refl eq_refl
             eq_refl eq_refl eq_refl).
  reflexivity.
Defined.

Lemma get_contents_missing_path_witness :
  (get_contents "bucket-a" "nope.txt" Example.mounted).1
  = inl (HTTPError codes.BAD_REQUEST
           "The following error occured when retrieving the contents: Object at location nope.txt not found").
Proof.
  rewrite (get_contents_missing_path Example.mounted "bucket-a"
             Example.bucket_a "nope.txt" [] (Sim.not_found "nope.txt") _ _
             eq_refl eq_refl eq_refl eq_refl eq_refl).
  reflexivity.
Defined.

Lemma get_contents_empty_root_witness :
  (get_contents "bucket-b" "/" Scenario.mounted_empty).1 = inr (Listing []).
Proof.
  destruct (get_contents_empty_root Scenario.mounted_empty "bucket-b"
              Scenario.bucket_b "/" [] _ eq_refl eq_refl eq_refl eq_refl)
    as [Hwith _].
  rewrite (Hwith "eu-north-1" (Scenario.with_client Scenario.mounted_empty)
             false _ eq_refl eq_refl).
  reflexivity.
Defined.

Lemma check_file_any_failure_is_not_found_witness :
  (check_file "bucket-a" "nope.txt" Example.mounted).1
  = inl (HTTPError codes.NOT_FOUND "Object does not already exist within drive.").
Proof.
  rewrite (check_file_any_failure_is_not_found Example.mounted "bucket-a"
             Example.bucket_a "nope.txt" (inl (Sim.not_found "nope.txt")) _
             eq_refl eq_refl).
  reflexivity.
Defined.

Lemma new_file_puts_empty_object_witness :
  let created := new_file "bucket-a" "/notes" false Example.mounted in
  created.1
  = inr {| e_path := "notes"; e_content := Some (PStr EmptyString);
           e_last_modified := "2024-05-01T12:00:00+00:00"; e_size := 0 |}
  /\ calls created.2
     = [CallPut "bucket-a" "notes" (PVal (PBytes [])) overwrite;
        CallHead "bucket-a" "notes"].
Proof.
  cbv zeta.
  rewrite (new_file_puts_empty_object Example.mounted "bucket-a"
             Example.bucket_a "/notes" false _ _ _ eq_refl eq_refl eq_refl
             eq_refl).
  split; reflexivity.
Defined.

Lemma save_file_refuses_bad_content_witness :
  save_file "bucket-a" "notes.txt" (PInt 3) "text" "text" "file" Example.mounted
  = (inl (HTTPError codes.BAD_REQUEST
            "The following error occured when saving the file: encode"),
     Example.mounted).
Proof.
  exact (save_file_refuses_bad_content Example.mounted "bucket-a" "notes.txt"
           (PInt 3) "text" "text" "file" (AttributeError "encode") eq_refl).
Defined.

Lemma save_file_put_failure_witness :
  let saved :=
    save_file "bucket-a" "notes.txt" (PStr "words") "raw" "text" "file"
      Example.mounted in
  saved.1
  = inl (HTTPError codes.BAD_REQUEST
           "The following error occured when saving the file: a bytes-like object is required")
  /\ calls saved.2
     = [CallPut "bucket-a" "notes.txt" (PVal (PStr "words")) overwrite].
Proof.
  cbv zeta.
  rewrite (save_file_put_failure Example.mounted "bucket-a" Example.bucket_a
             "notes.txt" (PStr "words") "raw" "text" "file"
             (PVal (PStr "words")) _ _ eq_refl eq_refl eq_refl).
  split; reflexivity.
Defined.

Lemma call_provider_page_size_is_forced_witness :
  prepare_request Example.config "items" true "get" None
    (Some [("per_page", PInt 5); ("q", PStr "x")]) None true
  = inr (Example.get "https://api.example/items?per_page=100&q=x",
         "https://api.example/items?per_page=100&q=x", true, None, None).
Proof.
  destruct (call_provider_page_size_is_forced (C := simulated) Example.config "items" "get"
              (Some [("per_page", PInt 5); ("q", PStr "x")]) None
              "https://api.example" eq_refl eq_refl) as [H _].
  rewrite H. reflexivity.
Defined.

Lemma call_provider_only_fetches_witness :
  let run :=
    _call_provider 3 "items" true "GET" None None None true Example.fresh in
  exists out s',
    run = Some (out, s')
    /\ self s' = self Example.fresh
    /\ exists requests,
        calls s' = calls Example.fresh ++ map CallFetch requests
        /\ (length requests <= 3)%nat.
Proof.
  cbv zeta.
  destruct (_call_provider 3 "items" true "GET" None None None true
              Example.fresh) as [[out s']|] eqn:Hrun; [|discriminate].
  exists out, s'. split; [reflexivity|].
  exact (call_provider_only_fetches 3 "items" true "GET" None None None true
           Example.fresh out s' Hrun).
Defined.

Lemma list_drives_s3_witness :
  list_drives (self Example.mounted) (remote Example.mounted, [])
  = (inr [{| drive_name_ := "bucket-a"; drive_region := Some "eu-north-1";
             drive_creation_date := PStr "2024-05-01T12:00:00+00:00";
             drive_mounted := true; drive_provider := Some "s3" |}],
     (remote Example.mounted,
      [CallListContainers Provider_S3;
       CallGetBucketLocation "default" "bucket-a"])).
Proof.
  refine (list_drives_s3 (D := simulated_discovery) (self Example.mounted) ∅
            "default" (remote Example.mounted) (remote Example.mounted) []
            (fun _ => Some "eu-north-1")
            (fun _ => PStr "2024-05-01T12:00:00+00:00")
            [{| container_name := "bucket-a";
                container_extra :=
                  [("creation_date", PStr "2024-05-01T12:00:00+00:00")] |}]
            eq_refl eq_refl eq_refl eq_refl eq_refl _).
  repeat constructor.
Defined.

Lemma list_drives_gcs_witness :
  list_drives (D := Scenario.flaky_discovery) Scenario.gcs_manager
    (Example.cloud, [])
  = (inl (UnboundLocalError "location"),
     (Example.cloud, [CallListContainers Provider_GOOGLE_STORAGE])).
Proof.
  exact (list_drives_gcs (D := Scenario.flaky_discovery) Scenario.gcs_manager
           Example.cloud Example.cloud [] Scenario.two_buckets
           eq_refl eq_refl eq_refl).
Defined.

Lemma list_drives_location_failure_witness :
  list_drives (D := Scenario.flaky_discovery) (self Example.mounted)
    (Example.cloud, [])
  = (inl (HTTPError codes.BAD_REQUEST
            "The following error occured when retriving the drive location: NoSuchBucket"),
     (Example.cloud,
      [CallListContainers Provider_S3;
       CallGetBucketLocation "default" "bucket-a";
       CallGetBucketLocation "default" "bucket-gone"])).
Proof.
  refine (list_drives_location_failure (D := Scenario.flaky_discovery)
            (self Example.mounted) ∅ "default" Example.cloud Example.cloud
            Example.cloud [] (fun _ => Some "eu-north-1")
            (fun _ => PStr "2023-11-05T09:30:00.000Z")
            [{| container_name := "bucket-a";
                container_extra :=
                  [("creation_date", PStr "2023-11-05T09:30:00.000Z")] |}]
            {| container_name := "bucket-gone";
               container_extra :=
                 [("creation_date", PStr "2024-01-17T16:45:00.000Z")] |}
            (LibraryError "ClientError" "NoSuchBucket") []
            eq_refl eq_refl eq_refl eq_refl eq_refl _ eq_refl).
  repeat constructor.
Defined.

Lemma s3_manager_mount_replaces_witness :
  exists self',
    S3Manager.mount_drive string (fun _ _ endpoint bucket => inr ("new:" +:+ bucket))
      {| S3Manager.config := Example.config;
         S3Manager.s3_content_managers := <["bucket-a" := "old:bucket-a"]> ∅ |}
      "bucket-a"
    = inr ("new:bucket-a", self')
    /\ S3Manager.s3_content_managers string self' !! "bucket-a"
       = Some "new:bucket-a".
Proof.
  destruct (s3_manager_mount_replaces
              (fun _ _ _ bucket => inr ("new:" +:+ bucket))
              {| S3Manager.config := Example.config;
                 S3Manager.s3_content_managers := <["bucket-a" := "old:bucket-a"]> ∅ |}
              "bucket-a" "old:bucket-a" "new:bucket-a")
    as (self' & Hmount & Hnew & _); [reflexivity | reflexivity |].
  exists self'. split; [exact Hmount | exact Hnew].
Defined.

Lemma s3_manager_unmount_witness :
  S3Manager.unmount_drive string
    {| S3Manager.config := Example.config;
       S3Manager.s3_content_managers := ∅ |} "bucket-a"
  = inl (HTTPError codes.BAD_REQUEST "Drive is not mounted or doesn't exist.").
Proof.
  destruct (s3_manager_unmount (fun _ _ _ bucket => inr bucket)
              {| S3Manager.config := Example.config;
                 S3Manager.s3_content_managers := ∅ |} "bucket-a")
    as [H _]; [reflexivity|].
  exact H.
Defined.
